(** * Lazy dispatch core of intake: readers, pipelines and the Functioner

    A shallow embedding of [intake/readers/mixins.py] (classes
    [PipelineMixin] and [Functioner]), of [intake/config.py] (class [Config]
    and [intake_path_dirs]), of the port helpers of [intake/conftest.py] and
    of [StackBands._read] of [intake/readers/catalogs.py], followed by the
    properties the specification states about them and by further properties
    of the code. *)

From Stdlib Require Import Ascii.
From stdpp Require Import base strings list gmap sorting.

Set Warnings "-register-all".

(** ** Python building blocks *)

Module Py.

(** [needle in hay] on [str]: [needle] occurs as a contiguous substring. *)
Fixpoint contains (needle hay : string) : bool :=
  String.prefix needle hay ||
  match hay with
  | EmptyString => false
  | String _ rest => contains needle rest
  end.

(** [sorted(...)] on a sequence of [str]: ascending in the order of the
    code units ([String.le] is [String.leb]). *)
Definition sorted (l : list string) : list string := merge_sort String.le l.

(** The builtin [dir(obj)]: it calls [type(obj).__dir__(obj)] and sorts what
    comes back; the argument is the list the [__dir__] hook returned. *)
Definition dir (hook_result : list string) : list string := sorted hook_result.

(** [x or y] where [x] is [None] or a [str]: [None] and the empty string
    are falsy. *)
Definition or_else (x : option string) (y : string) : string :=
  match x with
  | None => y
  | Some s => if decide (s = "") then y else s
  end.

(** Exceptions that reach the caller. [TypeError] is what Python raises when
    a call does not fit the signature of the function; [Failure] stands for
    whatever an external call ([read()], the indexing of its result, a
    registry or namespace lookup) raises. *)
Inductive Exc : Type :=
| KeyError (key : string)
| TypeError (msg : string)
| Failure (msg : string).

Inductive Outcome (A : Type) : Type :=
| Returns (a : A)
| Raises (e : Exc).
Global Arguments Returns {A} a.
Global Arguments Raises {A} e.

(** [d[k]] on a [dict] with [str] keys. *)
Definition dict_getitem {V} (d : gmap string V) (k : string) : Outcome V :=
  match d !! k with
  | Some v => Returns v
  | None => Raises (KeyError k)
  end.

End Py.

(** ** Data model *)

(** A registered transformation: a callable (a function or a class), seen
    through its [__name__]; [__module__] tells apart two callables that carry
    the same name. *)
Record Callable : Type := { __module__ : string; __name__ : string }.

(** Positional and keyword arguments stored in a step. *)
Inductive PyArg : Type :=
| PStr (s : string)
| PInt (z : Z)
| PCallable (f : Callable).

(** The first component of a step: a reader object, a registered callable, or
    one of the generic operations [intake.readers.transform.GetItem],
    [intake.readers.transform.Method], [intake.readers.convert.GenericFunc]. *)
Inductive Operation (R : Type) : Type :=
| OpReader (r : R)
| OpCallable (f : Callable)
| GetItem
| Method
| GenericFunc.
Global Arguments OpReader {R} r.
Global Arguments OpCallable {R} f.
Global Arguments GetItem {R}.
Global Arguments Method {R}.
Global Arguments GenericFunc {R}.

(** A step is the tuple [(operation, args, kwargs)]. *)
Definition Step (R : Type) : Type := Operation R * list PyArg * gmap string PyArg.

(** A reader is atomic (an instance of some reader class, with its class
    level [output_instance]) or a [Pipeline], which carries [steps] and
    [out_instances] as its constructor receives them. *)
Inductive Reader : Type :=
| Atomic (cls : string) (output_instance : string)
| Pipeline (steps : list (Step Reader)) (out_instances : list string).

(** [isinstance(r, Pipeline)] *)
Definition isinstance_Pipeline (r : Reader) : bool :=
  match r with
  | Pipeline _ _ => true
  | Atomic _ _ => false
  end.

(** Modelled from the spec: the class [Pipeline] lives in
    [intake/readers/convert.py], which is not part of the sources at hand.
    Its [output_instance] property "returns the last entry of the output-type
    sequence" (section 4.3); the empty label below is only ever produced for
    a pipeline without any output type, which no code path of the core
    builds. *)
Definition output_instance (r : Reader) : string :=
  match r with
  | Atomic _ o => o
  | Pipeline _ outs => default "" (last outs)
  end.

(** Modelled from the spec: [Pipeline.with_step(step, out_instance)] of
    [intake/readers/convert.py] "appends [step] and [out_instance] to the
    sequences" (section 4.3). The receiver is given by its two sequences. *)
Definition with_step (steps : list (Step Reader)) (out_instances : list string)
    (step : Step Reader) (out_instance : string) : Reader :=
  Pipeline (steps ++ [step]) (out_instances ++ [out_instance]).

Definition steps_of (r : Reader) : list (Step Reader) :=
  match r with
  | Atomic _ _ => []
  | Pipeline steps _ => steps
  end.

Definition out_instances_of (r : Reader) : list string :=
  match r with
  | Atomic _ _ => []
  | Pipeline _ outs => outs
  end.

(** ** Effects: calls of [read()] and exceptions *)

(** The only effect the dispatch code can have on the outside world is to
    call [read()] on a reader; every such call is recorded. *)
Inductive Event : Type :=
| ReadCall (r : Reader).

Definition Trace : Type := list Event.

(** A computation takes the trace so far and gives an outcome and the
    extended trace. *)
Definition M (A : Type) : Type := Trace → Py.Outcome A * Trace.

Definition ret {A} (a : A) : M A := λ t, (Py.Returns a, t).

Definition bind {A B} (k : A → M B) (m : M A) : M B :=
  λ t, match m t with
       | (Py.Returns a, t') => k a t'
       | (Py.Raises e, t') => (Py.Raises e, t')
       end.

Definition lift {A} (o : Py.Outcome A) : M A := λ t, (o, t).

(** The notation [x ← m; k] of stdpp sequences two computations. *)
Global Instance M_ret : MRet M := @ret.
Global Instance M_bind : MBind M := @bind.

(** Number of recorded [read()] calls. *)
Definition read_calls (t : Trace) : nat := length t.

(** ** External collaborators *)

(** What the core receives from the rest of the package (section 6 of the
    specification): the registry accessor [convert_classes] of
    [intake.readers.convert] (a [dict] from output type to callable, kept in
    iteration order, keys pairwise distinct), [get_namespaces] of
    [intake.readers.namespaces], the inherited [object.__dir__], the
    materialisation [read()] of a reader and the indexing [value[item]] of a
    materialised value. [convert_classes] and [get_namespaces] give what the
    two calls return when they return. [inherited_attributes] are the names
    that every instance of a plain class answers to without the class
    defining them: those it inherits from [object], and those Python sets on
    the class itself ([__class__], [__dict__], [__doc__], [__module__],
    ...). *)
Class Collaborators (Value Namespace : Type) : Type := {
  convert_classes : string → list (string * Callable);
  get_namespaces : Reader → gmap string Namespace;
  object___dir__ : Reader → list string;
  inherited_attributes : list string;
  read : Reader → Py.Outcome Value;
  value_getitem : Value → string → Py.Outcome Value
}.

(** The two lookups are calls into other modules, and nothing in
    [mixins.py] catches what they raise: [convert_classes_raises label] is
    the exception the call [convert_classes(label)] ends with when it does
    not return, [get_namespaces_raises r] the one of [get_namespaces(r)]. *)
Class LookupErrors : Type := {
  convert_classes_raises : string → option Py.Exc;
  get_namespaces_raises : Reader → option Py.Exc
}.

(** Both lookups return, whatever they are asked. A statement that names no
    other instance is read with this one: it is about a package whose
    registry and namespace lookups return. *)
Global Instance lookups_return : LookupErrors := {|
  convert_classes_raises := λ _, None;
  get_namespaces_raises := λ _, None
|}.

(** What an attribute or item access hands back: a reader (a pipeline, when
    the access built one), a materialised value, a namespace, or the
    attribute [name] of the Functioner bound to [owner] (the reader it
    holds, its registry dict, one of its bound methods, ...). *)
Inductive PyObj (Value Namespace : Type) : Type :=
| ObjPipeline (p : Reader)
| ObjValue (v : Value)
| ObjNamespace (ns : Namespace)
| ObjAttribute (owner : Reader) (name : string).
Global Arguments ObjPipeline {Value Namespace} p.
Global Arguments ObjValue {Value Namespace} v.
Global Arguments ObjNamespace {Value Namespace} ns.
Global Arguments ObjAttribute {Value Namespace} owner name.

(** Binding a call to a signature [(self, func, *args, output_instance=None,
    **kwargs)]: a keyword argument named after one of the two positional
    parameters is refused ("got multiple values for argument"). [kwargs]
    holds the keyword arguments of the call other than [output_instance]. *)
Definition bind_keywords (kwargs : gmap string PyArg) : Py.Outcome (gmap string PyArg) :=
  if bool_decide ("self" ∈ dom kwargs) || bool_decide ("func" ∈ dom kwargs)
  then Py.Raises (Py.TypeError "got multiple values for argument")
  else Py.Returns kwargs.

(** [self.read()], recorded in the trace. *)
Definition call_read `{Collaborators Value Namespace} (self : Reader) : M Value :=
  λ t, (read self, t ++ [ReadCall self]).

(** The outcome of [self.read()[item]]: materialise, then index. *)
Definition read_then_index `{Collaborators Value Namespace} (self : Reader) (item : string)
    : Py.Outcome (PyObj Value Namespace) :=
  match read self with
  | Py.Returns v =>
      match value_getitem v item with
      | Py.Returns x => Py.Returns (ObjValue x)
      | Py.Raises e => Py.Raises e
      end
  | Py.Raises e => Py.Raises e
  end.

(** ** class Functioner *)

Record Functioner : Type := {
  reader : Reader;
  funcdict : list (string * Callable)
}.

(** [item in d] and [d[item]] on the registry dict. *)
Fixpoint funcdict_lookup (d : list (string * Callable)) (item : string) : option Callable :=
  match d with
  | [] => None
  | (k, f) :: rest => if decide (k = item) then Some f else funcdict_lookup rest item
  end.

Module Functioner.

Definition _ipython_key_completions_ (self : Functioner) : list string :=
  (funcdict self).*1.

Definition __getitem__ (self : Functioner) (item : string) : Reader :=
  let '(func, arg) :=
    match funcdict_lookup (funcdict self) item with
    | Some f => (OpCallable f, [])
    | None => (GetItem, [PStr item])
    end in
  let kw : gmap string PyArg := ∅ in
  match reader self with
  | Pipeline steps outs => with_step steps outs (func, [], kw) item
  | Atomic _ _ =>
      Pipeline [(OpReader (reader self), [], ∅); (func, arg, kw)]
               [output_instance (reader self); item]
  end.

Definition __dir__ (self : Functioner) : list string :=
  Py.sorted (__name__ <$> (funcdict self).*2).

(** [[(outtype, func) for outtype, func in self.funcdict.items()
      if func.__name__ == item]] *)
Definition matching (self : Functioner) (item : string) : list (string * Callable) :=
  filter (λ p, __name__ p.2 = item) (funcdict self).

Definition __getattr__ (self : Functioner) (item : string) : Reader :=
  let out := matching self item in
  let '(outtype, func, kw) :=
    match out with
    | [] => (output_instance (reader self), Method,
             ({["method_name" := PStr item]} : gmap string PyArg))
    | (outtype, func) :: _ => (outtype, OpCallable func, ∅)
    end in
  match reader self with
  | Pipeline steps outs => with_step steps outs (func, [], kw) outtype
  | Atomic _ _ =>
      Pipeline [(OpReader (reader self), [], ∅); (func, [], kw)]
               [output_instance (reader self); outtype]
  end.

(** [__call__] hands two sequences to [Pipeline(...)], or one step and one
    output type to [with_step]: the result is given by the steps and the
    output types it holds. The last output type is the caller's
    [output_instance] as it comes, [None] when it is omitted. *)
Definition __call__ (self : Functioner) (func : Callable) (args : list PyArg)
    (output_instance_arg : option string) (kwargs : gmap string PyArg)
    : Py.Outcome (list (Step Reader) * list (option string)) :=
  match bind_keywords kwargs with
  | Py.Raises e => Py.Raises e
  | Py.Returns kwargs =>
      match reader self with
      | Pipeline steps outs =>
          Py.Returns (steps ++ [(OpCallable func, args, kwargs)],
                      (Some <$> outs) ++ [output_instance_arg])
      | Atomic _ _ =>
          Py.Returns ([(OpReader (reader self), [], ∅); (OpCallable func, args, kwargs)],
                      [Some (output_instance (reader self)); output_instance_arg])
      end
  end.

(** The names ordinary attribute lookup finds on a Functioner: the two
    instance attributes [__init__] sets, the names the class body binds, and
    what every instance answers to. *)
Definition attributes `{Collaborators Value Namespace} : list string :=
  ["reader"; "funcdict"; "__init__"; "_ipython_key_completions_"; "__getitem__";
   "__repr__"; "__call__"; "__dir__"; "__getattr__"] ++ inherited_attributes.

(** The builtin [getattr(self, item)]: ordinary lookup comes first, and
    [__getattr__] is only asked for a name that lookup does not find. *)
Definition getattr `{Collaborators Value Namespace} (self : Functioner) (item : string)
    : PyObj Value Namespace :=
  if bool_decide (item ∈ attributes) then ObjAttribute (reader self) item
  else ObjPipeline (__getattr__ self item).

End Functioner.

(** ** class PipelineMixin *)

Module PipelineMixin.
Section methods.
Context {Value Namespace : Type} `{!Collaborators Value Namespace} {errors : LookupErrors}.

(** property [transform], when [convert_classes] returns *)
Definition transform (self : Reader) : Functioner :=
  {| reader := self; funcdict := convert_classes (output_instance self) |}.

(** property [_namespaces], when [get_namespaces] returns *)
Definition _namespaces (self : Reader) : gmap string Namespace :=
  get_namespaces self.

(** The evaluation of [self.transform]: the property calls
    [convert_classes(self.output_instance)] each time it is read. *)
Definition eval_transform (self : Reader) : M Functioner :=
  match convert_classes_raises (output_instance self) with
  | Some e => lift (Py.Raises e)
  | None => ret (transform self)
  end.

(** The evaluation of [self._namespaces]. *)
Definition eval_namespaces (self : Reader) : M (gmap string Namespace) :=
  match get_namespaces_raises self with
  | Some e => lift (Py.Raises e)
  | None => ret (_namespaces self)
  end.

(** [__getattr__] is the hook Python calls for a name that ordinary
    attribute lookup does not find on the reader. Its first branch goes
    through the builtin [getattr] on the Functioner, its last branch calls
    the Functioner's hook directly. *)
Definition __getattr__ (self : Reader) (item : string) : M (PyObj Value Namespace) :=
  f ← eval_transform self;
  if bool_decide (item ∈ Py.dir (Functioner.__dir__ f)) then
    f ← eval_transform self;
    ret (Functioner.getattr f item)
  else if Py.contains "Catalog" (output_instance self) then
    v ← call_read self;
    x ← lift (value_getitem v item);
    ret (ObjValue x)
  else
    namespaces ← eval_namespaces self;
    if bool_decide (item ∈ dom namespaces) then
      namespaces ← eval_namespaces self;
      ns ← lift (Py.dict_getitem namespaces item);
      ret (ObjNamespace ns)
    else
      f ← eval_transform self;
      ret (ObjPipeline (Functioner.__getattr__ f item)).

Definition __getitem__ (self : Reader) (item : string) : M (PyObj Value Namespace) :=
  let outtype := output_instance self in
  if Py.contains "Catalog" outtype then
    v ← call_read self;
    x ← lift (value_getitem v item);
    ret (ObjValue x)
  else
    match self with
    | Pipeline steps outs =>
        ret (ObjPipeline (with_step steps outs (GetItem, [PStr item], ∅) outtype))
    | Atomic _ _ =>
        ret (ObjPipeline
               (Pipeline [(OpReader self, [], ∅); (GetItem, [PStr item], ∅)]
                         [output_instance self; outtype]))
    end.

(** The arguments of [chain] are evaluated from left to right. [chain] walks
    the namespace dict by its keys; the order in which the keys come is
    immaterial, the whole list is sorted. *)
Definition __dir__ (self : Reader) : M (list string) :=
  let native := object___dir__ self in
  f ← eval_transform self;
  namespaces ← eval_namespaces self;
  ret (Py.sorted (native ++ Py.dir (Functioner.__dir__ f) ++ elements (dom namespaces))).

(** The call is bound to the signature first; the body then stores [func]
    under the keyword of that name. *)
Definition apply (self : Reader) (func : Callable) (args : list PyArg)
    (output_instance_arg : option string) (kwargs : gmap string PyArg)
    : M (PyObj Value Namespace) :=
  kwargs ← lift (bind_keywords kwargs);
  let kwargs := <["func" := PCallable func]> kwargs in
  ret (ObjPipeline
         (Pipeline [(OpReader self, [], ∅); (GenericFunc, args, kwargs)]
                   [output_instance self;
                    Py.or_else output_instance_arg (output_instance self)])).

End methods.
End PipelineMixin.

(** ** Vocabulary of the statements *)

(** The pipeline that carries one more step than [self]: a [Pipeline] has the
    step appended, an atomic reader is wrapped as the first of two steps. *)
Definition extended (self : Reader) (step : Step Reader) (out_instance : string) : Reader :=
  match self with
  | Pipeline steps outs => with_step steps outs step out_instance
  | Atomic _ _ =>
      Pipeline [(OpReader self, [], ∅); step] [output_instance self; out_instance]
  end.

(** The two sequences of a pipeline have the same length. *)
Definition balanced (r : Reader) : Prop :=
  length (out_instances_of r) = length (steps_of r).

(** The invariant as the specification words it. *)
Definition one_more_output_type (r : Reader) : Prop :=
  length (out_instances_of r) = length (steps_of r) + 1.

(** The name is the [__name__] of a callable registered in the dict. *)
Definition names_transformation (d : list (string * Callable)) (n : string) : Prop :=
  ∃ outtype func, (outtype, func) ∈ d ∧ __name__ func = n.

(** Readers the core can produce: atomic readers to begin with, then whatever
    an item access, an attribute access, [apply] or the Functioner (by item,
    by attribute, or called with a function) hands back as a pipeline. What
    [Functioner.__call__] builds is a reader of this data model when all its
    output types are labels, that is when the caller declares an
    [output_instance]. *)
Inductive core_built {Value Namespace : Type} `{!Collaborators Value Namespace}
    {errors : LookupErrors} : Reader → Prop :=
| built_atomic cls o :
    core_built (Atomic cls o)
| built_getitem self item t t' p :
    core_built self →
    PipelineMixin.__getitem__ self item t = (Py.Returns (ObjPipeline p), t') →
    core_built p
| built_getattr self item t t' p :
    core_built self →
    PipelineMixin.__getattr__ self item t = (Py.Returns (ObjPipeline p), t') →
    core_built p
| built_apply self func args o kwargs t t' p :
    core_built self →
    PipelineMixin.apply (Value:=Value) (Namespace:=Namespace) self func args o kwargs t
      = (Py.Returns (ObjPipeline p), t') →
    core_built p
| built_transform_getitem self item :
    core_built self →
    core_built (Functioner.__getitem__ (PipelineMixin.transform self) item)
| built_transform_getattr self item :
    core_built self →
    core_built (Functioner.__getattr__ (PipelineMixin.transform self) item)
| built_transform_call self func args o kwargs steps labels :
    core_built self →
    Functioner.__call__ (PipelineMixin.transform self) func args o kwargs
      = Py.Returns (steps, Some <$> labels) →
    core_built (Pipeline steps labels).

(** ** class Config *)

Module Config.

(** Values found in the configuration: [None], booleans, strings, and lists
    and tuples of strings. *)
Inductive Value : Type :=
| VNone
| VBool (b : bool)
| VStr (s : string)
| VList (l : list string)
| VTuple (l : list string).

(** The module-level [defaults]. *)
Definition defaults : gmap string Value :=
  list_to_map
    [("logging", VStr "INFO");
     ("catalog_path", VList []);
     ("allow_import", VBool true);
     ("allow_templates", VBool true);
     ("allow_pickle", VBool false);
     ("import_on_startup", VBool true);
     ("extra_imports", VList []);
     ("import_block_list", VList [])].

(** [Config] derives from [dict]: [self] is the mapping of its own stored
    entries, and [super().__getitem__] is the plain dict lookup. *)
Definition __getitem__ (self : gmap string Value) (item : string) : Py.Outcome Value :=
  if bool_decide (item ∈ dom self) then Py.dict_getitem self item
  else if bool_decide (item ∈ dom defaults) then Py.dict_getitem defaults item
  else Py.Raises (Py.KeyError item).

Definition get (self : gmap string Value) (key : string) (default : Value) : Py.Outcome Value :=
  if bool_decide (key ∈ dom self) then Py.dict_getitem self key
  else Py.Returns default.

(** [d.update(other)]: the entries of [other] are written over those of
    [d]. *)
Definition dict_update {V} (other d : gmap string V) : gmap string V := other ∪ d.

(** [reset]: [self.clear()] then [self.update(defaults)]. *)
Definition reset (self : gmap string Value) : gmap string Value :=
  dict_update defaults ∅.

(** *** [intake_path_dirs] *)

(** What the methods below can raise besides a [KeyError] of [__getitem__]:
    the [TypeError] of [pattern.split] on something that is no string, and
    whatever [logger.setLevel] raises (a [ValueError] for a name that is no
    level, a [TypeError] for a level that is neither a string nor a
    number). *)
Inductive Error : Type :=
| SplitTypeError
| Lookup (e : Py.Exc)
| LoggerError (msg : string).

(** The lookahead [(?![:/])] fails: the text that follows begins with a colon
    or a slash. *)
Definition blocks_split (rest : string) : bool :=
  match rest with
  | String c _ => bool_decide (c = ":"%char) || bool_decide (c = "/"%char)
  | EmptyString => false
  end.

(** Put a character in front of the first piece. *)
Definition push (c : Ascii.ascii) (pieces : list string) : list string :=
  match pieces with
  | piece :: more => String c piece :: more
  | [] => [String c ""]
  end.

(** [re.compile(r"(?<!:):(?![:/])").split(s)], scanning from a position
    whose preceding character is a colon or not: a colon is a separator when
    no colon stands before it and neither a colon nor a slash after it. *)
Fixpoint split_posix_from (after_colon : bool) (s : string) : list string :=
  match s with
  | EmptyString => [""]
  | String c rest =>
      if bool_decide (c = ":"%char) && negb after_colon && negb (blocks_split rest)
      then "" :: split_posix_from true rest
      else push c (split_posix_from (bool_decide (c = ":"%char)) rest)
  end.

Definition split_posix (s : string) : list string := split_posix_from false s.

(** [re.compile(";").split(s)] *)
Fixpoint split_nt (s : string) : list string :=
  match s with
  | EmptyString => [""]
  | String c rest =>
      if bool_decide (c = ";"%char) then "" :: split_nt rest
      else push c (split_nt rest)
  end.

(** [os_name] is [os.name]. A list or a tuple comes back as it is, a string
    is split, anything else makes [pattern.split] raise. *)
Definition intake_path_dirs (os_name : string) (path : Value) : Error + Value :=
  match path with
  | VList l => inr (VList l)
  | VTuple l => inr (VTuple l)
  | VStr s => inr (VList (if decide (os_name = "nt") then split_nt s else split_posix s))
  | VNone | VBool _ => inl SplitTypeError
  end.

(** *** [set] and the context manager [_unset] *)

Section set.
Context {V : Type}.

(** [merge_dicts] of [intake.readers.utils] is not among the sources; it is
    taken as it comes. *)
Context (merge_dicts : gmap string V → gmap string V → gmap string V).

(** [if update_dict: kw.update(update_dict)]: an empty dict is falsy. *)
Definition set_kw (update_dict : option (gmap string V)) (kw : gmap string V)
    : gmap string V :=
  match update_dict with
  | Some u => if decide (size u = 0) then kw else dict_update u kw
  | None => kw
  end.

(** [set] gives the new state of [self] and the copy [temp] that the
    returned context manager holds. *)
Definition set (self : gmap string V) (update_dict : option (gmap string V))
    (kw : gmap string V) : gmap string V * gmap string V :=
  let temp := self in
  let kw := set_kw update_dict kw in
  (dict_update (merge_dicts self kw) self, temp).

(** The part of [_unset] after the [yield]: [self.clear()],
    [self.update(temp)]. *)
Definition _unset (temp : gmap string V) (self : gmap string V) : gmap string V :=
  dict_update temp ∅.

(** [with self.set(update_dict, **kw): body]. The generator of a
    [contextlib.contextmanager] is resumed after its [yield] when the body
    ends normally; an exception of the body is thrown into the generator at
    the [yield], which has no handler, so the rest of [_unset] does not
    run. *)
Definition with_set {E A} (self : gmap string V) (update_dict : option (gmap string V))
    (kw : gmap string V) (body : gmap string V → (E + A) * gmap string V)
    : (E + A) * gmap string V :=
  let '(self, temp) := set self update_dict kw in
  match body self with
  | (inr a, self) => (inr a, _unset temp self)
  | (inl e, self) => (inl e, self)
  end.

End set.

(** *** [load_env] *)

Section load_env.

(** [os.name], [fsspec]'s [make_path_posix], [str.lower] and the effect of
    [logger.setLevel] (the exception it raises, if any, given by its
    message). *)
Context (os_name : string) (make_path_posix : string → string)
        (lower : string → string) (setLevel : Value → option string).

Definition path_variables : list (string * string) :=
  [("cache_dir", "INTAKE_CACHE_DIR");
   ("catalog_path", "INTAKE_PATH");
   ("persist_path", "INTAKE_PERSIST_PATH")].

Definition flag_variables : list (string * string) :=
  [("cache_disabled", "INTAKE_DISABLE_CACHING");
   ("cache_download_progress", "INTAKE_CACHE_PROGRESS")].

(** [if envvar in os.environ: self[key] = make_path_posix(os.environ[envvar])] *)
Definition load_path (environ : gmap string string) (self : gmap string Value)
    (entry : string * string) : gmap string Value :=
  match environ !! entry.2 with
  | Some v => <[entry.1 := VStr (make_path_posix v)]> self
  | None => self
  end.

(** [if envvar in os.environ:
       self[key] = os.environ[envvar].lower() in ["true", "t", "y", "yes"]] *)
Definition load_flag (environ : gmap string string) (self : gmap string Value)
    (entry : string * string) : gmap string Value :=
  match environ !! entry.2 with
  | Some v => <[entry.1 := VBool (bool_decide (lower v ∈ ["true"; "t"; "y"; "yes"]))]> self
  | None => self
  end.

(** The outcome and the state [self] is left in. *)
Definition load_env (environ : gmap string string) (self : gmap string Value)
    : (Error + ()) * gmap string Value :=
  let self := foldl (load_path environ) self path_variables in
  match __getitem__ self "catalog_path" with
  | Py.Raises e => (inl (Lookup e), self)
  | Py.Returns path =>
      match intake_path_dirs os_name path with
      | inl e => (inl e, self)
      | inr dirs =>
          let self := <["catalog_path" := dirs]> self in
          let self := foldl (load_flag environ) self flag_variables in
          let self :=
            match environ !! "INTAKE_LOG_LEVEL" with
            | Some level => <["logging" := VStr level]> self
            | None => self
            end in
          match __getitem__ self "logging" with
          | Py.Raises e => (inl (Lookup e), self)
          | Py.Returns level =>
              match setLevel level with
              | Some msg => (inl (LoggerError msg), self)
              | None => (inr (), self)
              end
          end
      end
  end.

End load_env.

End Config.

(** ** conftest.py *)

Module Conftest.

Definition MIN_PORT : Z := 7480.
Definition MAX_PORT : Z := 7489.

(** [pick_port] reads and writes the module-level [PORT]: it gives the port
    it returns and the new value of [PORT]. *)
Definition pick_port (PORT : Z) : Z * Z :=
  let port := PORT in
  if decide (port = MAX_PORT) then (port, MIN_PORT)
  else (port, PORT + 1)%Z.

(** [n] calls in a row: the ports returned, in order, and [PORT] at the
    end. *)
Fixpoint pick_ports (n : nat) (PORT : Z) : list Z * Z :=
  match n with
  | O => ([], PORT)
  | S n =>
      let '(port, PORT) := pick_port PORT in
      let '(ports, PORT) := pick_ports n PORT in
      (port :: ports, PORT)
  end.

(** [ping_server]: [requests_get url] is what [requests.get(url)] does,
    raising some [Exception] or answering with a status code. *)
Definition ping_server {E} (requests_get : string → E + Z) (url : string)
    (swallow_exception : bool) : E + bool :=
  match requests_get url with
  | inl e => if swallow_exception then inr false else inl e
  | inr status_code =>
      inr (bool_decide (status_code = 200%Z) || bool_decide (status_code = 403%Z))
  end.

End Conftest.

(** ** class StackBands of readers/catalogs.py *)

Module StackBands.

(** An entry of [band_info], the [to_dict()] of an [eo:bands] element: the
    values under the keys ["id"], ["name"] and ["common_name"], each of which
    may be missing. *)
Record Band : Type := {
  band_id : option string;
  band_name : option string;
  band_common_name : option string
}.

(** What [_read] uses of an asset of the item. *)
Record Asset : Type := {
  href : string;
  media_type : option string
}.

(** [ValueError] for a band that is not found, with the band and the sorted
    valid names of its message; the [TypeError] of [sorted] when the valid
    names hold both [None] and a string; [ValueError] for bands of several
    types; whatever building the reader raises. *)
Inductive Error : Type :=
| BandNotFound (band : option string) (valid : list (option string))
| Unsortable
| MixedTypes
| ReaderError (msg : string).

(** [b.get("id", b.get("name"))] *)
Definition id_or_name (b : Band) : option string :=
  match band_id b with
  | Some i => Some i
  | None => band_name b
  end.

(** [next((b for b in band_info if key(b) == band), None)] *)
Definition first_info (key : Band → option string) (band : string)
    (band_info : list Band) : option Band :=
  head (filter (λ b, key b = Some band) band_info).

Definition valid_band_names (band_info : list Band) : list (option string) :=
  flat_map (λ b, [id_or_name b; band_common_name b]) band_info.

(** The [raise ValueError(f"... {sorted(list(set(valid_band_names)))}")]:
    sorting fails as soon as [None] has to be compared with a string. *)
Definition not_found (band : option string) (band_info : list Band) : Error :=
  let names := valid_band_names band_info in
  let strings := omap id names in
  if bool_decide (None ∈ names) then
    if bool_decide (strings = []) then BandNotFound band [None] else Unsortable
  else BandNotFound band (Some <$> Py.sorted (remove_dups strings)).

(** One turn of the loop over [bands]: the key of the asset and the asset. *)
Definition resolve (assets : gmap string Asset) (band_info : list Band) (band : string)
    : Error + (string * Asset) :=
  let '(info, band) :=
    if bool_decide (band ∈ dom assets) then
      (first_info id_or_name band band_info, Some band)
    else
      let info := first_info band_common_name band band_info in
      (info, match info with
             | Some i => id_or_name i
             | None => Some band
             end) in
  match band, info with
  | Some b, Some _ =>
      match assets !! b with
      | Some asset => inr (b, asset)
      | None => inl (not_found (Some b) band_info)
      end
  | _, _ => inl (not_found band band_info)
  end.

(** The loop: it stops at the first band that raises. *)
Fixpoint resolve_all (assets : gmap string Asset) (band_info : list Band)
    (bands : list string) : Error + list (string * Asset) :=
  match bands with
  | [] => inr []
  | band :: rest =>
      match resolve assets band_info band with
      | inl e => inl e
      | inr found =>
          match resolve_all assets band_info rest with
          | inl e => inl e
          | inr more => inr (found :: more)
          end
      end
  end.

(** [_read]. [assets] and [band_info] are what [pystac] gives for the item;
    [stack asset concat_dim hrefs] is the end of the method, on objects of
    other modules: the reader of [StacCatalogReader._get_reader(asset)] with
    [concat_dim] and the list of urls put into its arguments. *)
Definition _read {R} (stack : Asset → string → list string → Error + R)
    (assets : gmap string Asset) (band_info : list Band)
    (bands : list string) (concat_dim : string) : Error + R :=
  match resolve_all assets band_info bands with
  | inl e => inl e
  | inr found =>
      let types := media_type <$> found.*2 in
      let hrefs := href <$> found.*2 in
      if decide (length (remove_dups types) = 1) then
        match last found.*2 with
        | Some asset => stack asset concat_dim hrefs
        | None => inl MixedTypes
        end
      else inl MixedTypes
  end.

End StackBands.

(** ** Chains of item accesses, and well-formed search paths *)

(** [v[k1][k2]...] on a materialised value. *)
Fixpoint index_value `{Collaborators Value Namespace} (v : Value) (keys : list string)
    : Py.Outcome Value :=
  match keys with
  | [] => Py.Returns v
  | k :: rest =>
      match value_getitem v k with
      | Py.Returns x => index_value x rest
      | Py.Raises e => Py.Raises e
      end
  end.

(** [self[k1][k2]...]: each access goes through [PipelineMixin.__getitem__]
    as long as a reader comes back, and through the indexing of the value
    once the catalog was materialised. *)
Fixpoint getitems `{Collaborators Value Namespace} (self : Reader) (keys : list string)
    : M (PyObj Value Namespace) :=
  match keys with
  | [] => ret (ObjPipeline self)
  | k :: rest =>
      o ← PipelineMixin.__getitem__ self k;
      match o with
      | ObjPipeline p => getitems p rest
      | ObjValue v => x ← lift (index_value v rest); ret (ObjValue x)
      | ObjNamespace ns => ret (ObjNamespace ns)
      | ObjAttribute owner name => ret (ObjAttribute owner name)
      end
  end.

(** The steps and output types a reader brings into a pipeline built on
    it. *)
Definition base_steps (self : Reader) : list (Step Reader) :=
  match self with
  | Atomic _ _ => [(OpReader self, [], ∅)]
  | Pipeline steps _ => steps
  end.

Definition base_out_instances (self : Reader) : list string :=
  match self with
  | Atomic _ o => [o]
  | Pipeline _ outs => outs
  end.

(** Every colon of the text is directly followed by a slash, as in
    [protocol://]. *)
Fixpoint colons_guarded (s : string) : bool :=
  match s with
  | EmptyString => true
  | String c rest =>
      (if bool_decide (c = ":"%char)
       then match rest with
            | String d _ => bool_decide (d = "/"%char)
            | EmptyString => false
            end
       else true)
      && colons_guarded rest
  end.

(** The text is not empty and begins with neither a colon nor a slash. *)
Definition starts_plain (s : string) : bool :=
  match s with
  | EmptyString => false
  | String c _ => negb (Config.blocks_split s)
  end.

(** The text holds no semicolon. *)
Fixpoint semicolon_free (s : string) : bool :=
  match s with
  | EmptyString => true
  | String c rest => negb (bool_decide (c = ";"%char)) && semicolon_free rest
  end.

(** ** A small world to run the definitions in *)

Module Demo.

(** Materialised values: a catalog of named entries, or an entry. *)
Inductive Value : Type :=
| Catalog (entries : gmap string string)
| Entry (description : string).

Definition head_fn : Callable := {| __module__ := "pkg.ops"; __name__ := "head" |}.
Definition to_dask : Callable := {| __module__ := "pkg.dask"; __name__ := "convert" |}.
Definition to_polars : Callable := {| __module__ := "pkg.polars"; __name__ := "convert" |}.

(** A data reader, and a catalog reader as in [intake/readers/catalogs.py]. *)
Definition R : Reader := Atomic "CSVReader" "pkg:DataFrame".
Definition C : Reader := Atomic "StacCatalogReader" "intake.readers.entry:Catalog".

(** A pipeline that ends in a catalog, and one that ends in a data frame. *)
Definition PC : Reader :=
  Pipeline [(OpReader R, [], ∅); (OpCallable head_fn, [], ∅)]
           ["pkg:DataFrame"; "intake.readers.entry:Catalog"].
Definition PR : Reader :=
  Pipeline [(OpReader R, [], ∅); (OpCallable head_fn, [], ∅)]
           ["pkg:DataFrame"; "pkg:DataFrame"].

(** What [R["x"]] and [R.apply(head_fn, output_instance="")] build. *)
Definition R_x : Reader :=
  Pipeline [(OpReader R, [], ∅); (GetItem, [PStr "x"], ∅)]
           ["pkg:DataFrame"; "pkg:DataFrame"].
Definition R_applied : Reader :=
  Pipeline [(OpReader R, [], ∅); (GenericFunc, [], {["func" := PCallable head_fn]})]
           ["pkg:DataFrame"; "pkg:DataFrame"].

(** What [C.head] builds. *)
Definition C_head : Reader :=
  Pipeline [(OpReader C, [], ∅); (OpCallable head_fn, [], ∅)]
           ["intake.readers.entry:Catalog"; "pkg:DataFrame"].

(** A reader whose label merely mentions the marker. *)
Definition L : Reader := Atomic "ListingReader" "pkg.tools:CatalogSummaryTable".

Definition registry (output_type : string) : list (string * Callable) :=
  if decide (output_type = "pkg:DataFrame") then
    [("pkg:DataFrame", head_fn); ("dask:DataFrame", to_dask); ("polars:DataFrame", to_polars)]
  else if decide (output_type = "intake.readers.entry:Catalog") then
    [("pkg:DataFrame", head_fn)]
  else [].

Definition namespaces (r : Reader) : gmap string string :=
  if Py.contains "DataFrame" (output_instance r) then {["np" := "numpy namespace"]}
  else ∅.

Definition materialise (r : Reader) : Py.Outcome Value :=
  if Py.contains "Catalog" (output_instance r) then
    Py.Returns (Catalog {["entry1" := "first entry"]})
  else Py.Returns (Entry "data").

Definition index (v : Value) (item : string) : Py.Outcome Value :=
  match v with
  | Catalog entries =>
      match entries !! item with
      | Some d => Py.Returns (Entry d)
      | None => Py.Raises (Py.KeyError item)
      end
  | Entry _ => Py.Raises (Py.Failure "not subscriptable")
  end.

(** A configuration with one stored entry. *)
Definition conf : gmap string Config.Value := {["cache_dir" := Config.VStr "/tmp"]}.

(** What an instance of a class without bases answers to in CPython 3.11. *)
Definition object_names : list string :=
  ["__class__"; "__delattr__"; "__dict__"; "__dir__"; "__doc__"; "__eq__"; "__format__";
   "__ge__"; "__getattribute__"; "__getstate__"; "__gt__"; "__hash__"; "__init__";
   "__init_subclass__"; "__le__"; "__lt__"; "__module__"; "__ne__"; "__new__";
   "__reduce__"; "__reduce_ex__"; "__repr__"; "__setattr__"; "__sizeof__"; "__str__";
   "__subclasshook__"; "__weakref__"].

Global Instance world : Collaborators Value string := {|
  convert_classes := registry;
  get_namespaces := namespaces;
  object___dir__ := λ _, ["read"; "metadata"];
  inherited_attributes := object_names;
  read := materialise;
  value_getitem := index
|}.

(** A catalog reader whose label also selects the [np] namespace. *)
Definition DC : Reader := Atomic "FrameCatalogReader" "pkg:DataFrameCatalog".

(** A shallow [merge_dicts], and two bodies of a [with] block: one ends
    normally, one raises. *)
Definition shallow_merge (self kw : gmap string Config.Value) : gmap string Config.Value := kw.
Definition debug : gmap string Config.Value := {["logging" := Config.VStr "DEBUG"]}.
Definition quiet_body (self : gmap string Config.Value)
    : (string + option Config.Value) * gmap string Config.Value :=
  (inr (self !! "logging"), <["scratch" := Config.VNone]> self).
Definition failing_body (self : gmap string Config.Value)
    : (string + option Config.Value) * gmap string Config.Value :=
  (inl "boom", <["scratch" := Config.VNone]> self).

(** Environments and a configuration whose [catalog_path] is a boolean. *)
Definition environ_path : gmap string string :=
  {["INTAKE_PATH" := "s3://bucket/cats:gs://other:local/dir";
    "INTAKE_LOG_LEVEL" := "DEBUG"]}.
Definition environ_cache : gmap string string :=
  {["INTAKE_CACHE_DIR" := "/tmp/cache"; "INTAKE_LOG_LEVEL" := "DEBUG"]}.
Definition odd_conf : gmap string Config.Value :=
  {["catalog_path" := Config.VBool true; "logging" := Config.VStr "INFO"]}.
Definition accept_level (level : Config.Value) : option string := None.

(** An item with two bands of one type, and a third, unnamed entry. *)
Definition red : StackBands.Band :=
  {| StackBands.band_id := None; StackBands.band_name := Some "B04";
     StackBands.band_common_name := Some "red" |}.
Definition green : StackBands.Band :=
  {| StackBands.band_id := None; StackBands.band_name := Some "B03";
     StackBands.band_common_name := Some "green" |}.
Definition edge : StackBands.Band :=
  {| StackBands.band_id := None; StackBands.band_name := Some "B05";
     StackBands.band_common_name := None |}.
Definition tiff (url : string) : StackBands.Asset :=
  {| StackBands.href := url; StackBands.media_type := Some "image/tiff" |}.
Definition item_assets : gmap string StackBands.Asset :=
  {["B04" := tiff "https://host/B04.tif"; "B03" := tiff "https://host/B03.tif"]}.

(** A second world, where a data frame can be turned into a catalog. *)
Definition to_catalog : Callable := {| __module__ := "pkg.cat"; __name__ := "to_catalog" |}.
Definition catalog_world : Collaborators Value string := {|
  convert_classes := λ output_type,
    if decide (output_type = "pkg:DataFrame")
    then [("pkg:DataFrame", head_fn); ("intake.readers.entry:Catalog", to_catalog)]
    else [];
  get_namespaces := namespaces;
  object___dir__ := λ _, ["read"; "metadata"];
  inherited_attributes := object_names;
  read := materialise;
  value_getitem := index
|}.

(** A third world, where a callable registered for data frames is called
    [reader], like the attribute of the Functioner. *)
Definition reader_fn : Callable := {| __module__ := "pkg.io"; __name__ := "reader" |}.
Definition shadow_world : Collaborators Value string := {|
  convert_classes := λ output_type,
    if decide (output_type = "pkg:DataFrame")
    then [("pkg:DataFrame", head_fn); ("pkg:Reader", reader_fn)]
    else [];
  get_namespaces := namespaces;
  object___dir__ := λ _, ["read"; "metadata"];
  inherited_attributes := object_names;
  read := materialise;
  value_getitem := index
|}.

(** A package whose registry lookup fails for one output type (the import
    of an optional dependency, say), and one whose namespace lookup fails for
    data frames. *)
Definition D : Reader := Atomic "ParquetReader" "dask:DataFrame".
Definition registry_fails : LookupErrors := {|
  convert_classes_raises := λ output_type,
    if decide (output_type = "dask:DataFrame")
    then Some (Py.Failure "No module named dask") else None;
  get_namespaces_raises := λ _, None
|}.
Definition namespaces_fail : LookupErrors := {|
  convert_classes_raises := λ _, None;
  get_namespaces_raises := λ r,
    if Py.contains "DataFrame" (output_instance r)
    then Some (Py.Failure "No module named numpy") else None
|}.

(** What [R.transform(head_fn, 5)] holds, no output type declared. *)
Definition R_called : list (Step Reader) * list (option string) :=
  ([(OpReader R, [], ∅); (OpCallable head_fn, [PInt 5], ∅)],
   [Some "pkg:DataFrame"; None]).

(** The reader stands for its urls. *)
Definition stack_urls (asset : StackBands.Asset) (concat_dim : string) (hrefs : list string)
    : StackBands.Error + list string := inr hrefs.

End Demo.


(** * Properties *)

(** ** Substring test *)

Lemma append_cons (a : Ascii.ascii) (s q : string) :
  String a s +:+ q = String a (s +:+ q).
Proof. reflexivity. Qed.

Lemma append_nil (q : string) : "" +:+ q = q.
Proof. reflexivity. Qed.

Lemma prefix_split (n h : string) :
  String.prefix n h = true ↔ ∃ q, h = n +:+ q.
Proof.
  revert h. induction n as [|a n IH]; intros h; simpl.
  - destruct h; (split; [intros _; eexists; reflexivity | done]).
  - destruct h as [|b h]; simpl.
    + split; [done | intros [q Hq]; by rewrite append_cons in Hq].
    + destruct (Ascii.ascii_dec a b) as [->|Hne].
      * rewrite IH. split; intros [q Hq]; exists q; rewrite append_cons in *; congruence.
      * split; [done | intros [q Hq]; rewrite append_cons in Hq; congruence].
Qed.

Lemma contains_nil (n : string) : Py.contains n "" = String.prefix n "".
Proof. simpl. apply orb_false_r. Qed.

Lemma contains_cons (n : string) (c : Ascii.ascii) (h : string) :
  Py.contains n (String c h) = String.prefix n (String c h) || Py.contains n h.
Proof. reflexivity. Qed.

(** [Py.contains] is the substring relation. *)
Lemma contains_split (n h : string) :
  Py.contains n h = true ↔ ∃ p q, h = p +:+ n +:+ q.
Proof.
  induction h as [|c h IH].
  - rewrite contains_nil, prefix_split. split.
    + intros [q Hq]. by exists "", q.
    + intros [p [q Hq]]. destruct p; [by exists q | by rewrite append_cons in Hq].
  - rewrite contains_cons, orb_true_iff, IH, prefix_split. split.
    + intros [[q Hq] | [p [q Hq]]].
      * by exists "", q.
      * exists (String c p), q. by rewrite append_cons, Hq.
    + intros [p [q Hq]]. destruct p as [|c' p].
      * left. by exists q.
      * right. exists p, q. rewrite append_cons in Hq. congruence.
Qed.

(** ** Sorting and enumeration *)

Lemma sorted_perm (l : list string) : Py.sorted l ≡ₚ l.
Proof. apply merge_sort_Permutation. Qed.

Lemma sorted_ascending (l : list string) : StronglySorted String.le (Py.sorted l).
Proof. apply StronglySorted_merge_sort; apply _. Qed.

Lemma elem_of_sorted (x : string) (l : list string) : x ∈ Py.sorted l ↔ x ∈ l.
Proof. by rewrite sorted_perm. Qed.

Lemma elem_of_Functioner_dir (f : Functioner) (x : string) :
  x ∈ Functioner.__dir__ f ↔ names_transformation (funcdict f) x.
Proof.
  unfold Functioner.__dir__, names_transformation.
  rewrite elem_of_sorted, list_elem_of_fmap. split.
  - intros [c [-> Hc]]. apply list_elem_of_fmap in Hc as [[o c'] [-> Hin]].
    by exists o, c'.
  - intros [o [c [Hin <-]]]. exists c. split; [done|].
    apply list_elem_of_fmap. by exists (o, c).
Qed.

Lemma names_transformation_decide (d : list (string * Callable)) (x : string) :
  names_transformation d x ∨ ¬ names_transformation d x.
Proof.
  pose (f := {| reader := Atomic "" ""; funcdict := d |}).
  destruct (decide (x ∈ Functioner.__dir__ f)) as [Hin|Hnot].
  - left. by apply (elem_of_Functioner_dir f).
  - right. intros Hn. by apply Hnot, (elem_of_Functioner_dir f).
Qed.

Lemma elem_of_dir_Functioner (f : Functioner) (x : string) :
  x ∈ Py.dir (Functioner.__dir__ f) ↔ names_transformation (funcdict f) x.
Proof. unfold Py.dir. by rewrite elem_of_sorted, elem_of_Functioner_dir. Qed.

(** ** Functioner: which pair an attribute selects *)

Lemma matching_nil (f : Functioner) (item : string) :
  Functioner.matching f item = [] ↔ ¬ names_transformation (funcdict f) item.
Proof.
  unfold Functioner.matching, names_transformation. split.
  - intros Hnil [o [c [Hin Hname]]].
    assert ((o, c) ∈ filter (λ p : string * Callable, __name__ p.2 = item) (funcdict f)) as Hm
      by (apply list_elem_of_filter; done).
    rewrite Hnil in Hm. by apply not_elem_of_nil in Hm.
  - intros Hno. destruct (filter _ _) as [|[o c] rest] eqn:Hf; [done|].
    exfalso. apply Hno. exists o, c.
    assert ((o, c) ∈ filter (λ p : string * Callable, __name__ p.2 = item) (funcdict f)) as Hm
      by (rewrite Hf; left).
    by apply list_elem_of_filter in Hm as [? ?].
Qed.

Lemma matching_first (d1 d2 : list (string * Callable)) (r : Reader)
    (outtype : string) (func : Callable) (item : string) :
  Forall (λ p, __name__ p.2 ≠ item) d1 →
  __name__ func = item →
  ∃ rest, Functioner.matching {| reader := r; funcdict := d1 ++ (outtype, func) :: d2 |} item
          = (outtype, func) :: rest.
Proof.
  intros Hd1 Hname. unfold Functioner.matching. simpl.
  rewrite filter_app, filter_cons_True by done.
  assert (filter (λ p : string * Callable, __name__ p.2 = item) d1 = []) as ->.
  { induction Hd1 as [|p d1 Hp _ IH]; [done|]. by rewrite filter_cons_False. }
  eauto.
Qed.

Lemma matching_head (f : Functioner) (item : string) :
  names_transformation (funcdict f) item →
  ∃ outtype func rest,
    Functioner.matching f item = (outtype, func) :: rest
    ∧ (outtype, func) ∈ funcdict f ∧ __name__ func = item.
Proof.
  intros Hn. destruct (Functioner.matching f item) as [|[o c] rest] eqn:Hm.
  - by apply matching_nil in Hm.
  - exists o, c, rest. split; [done|].
    assert ((o, c) ∈ Functioner.matching f item) as Hin by (rewrite Hm; left).
    unfold Functioner.matching in Hin.
    by apply list_elem_of_filter in Hin as [? ?].
Qed.

(** What [Functioner.__getattr__] builds, by the shape of the match list. *)
Lemma Functioner_getattr_hit (f : Functioner) (item outtype : string)
    (func : Callable) (rest : list (string * Callable)) :
  Functioner.matching f item = (outtype, func) :: rest →
  Functioner.__getattr__ f item = extended (reader f) (OpCallable func, [], ∅) outtype.
Proof.
  intros Hm. unfold Functioner.__getattr__. rewrite Hm.
  by destruct (reader f).
Qed.

Lemma Functioner_getattr_miss (f : Functioner) (item : string) :
  Functioner.matching f item = [] →
  Functioner.__getattr__ f item
  = extended (reader f) (Method, [], {["method_name" := PStr item]})
             (output_instance (reader f)).
Proof.
  intros Hm. unfold Functioner.__getattr__. rewrite Hm.
  by destruct (reader f).
Qed.

(** Either way the Functioner hands back [reader f] with one more step. *)
Lemma Functioner_getattr_extended (f : Functioner) (item : string) :
  ∃ step out, Functioner.__getattr__ f item = extended (reader f) step out.
Proof.
  destruct (Functioner.matching f item) as [|[o c] rest] eqn:Hm.
  - eexists _, _. by apply Functioner_getattr_miss.
  - eexists _, _. by eapply Functioner_getattr_hit.
Qed.

Lemma Functioner_getitem_extended (f : Functioner) (item : string) :
  ∃ step, Functioner.__getitem__ f item = extended (reader f) step item.
Proof.
  unfold Functioner.__getitem__.
  destruct (funcdict_lookup (funcdict f) item); destruct (reader f); simpl; eauto.
Qed.

(** ** Shape of an extended pipeline *)

Lemma extended_balanced (self : Reader) (step : Step Reader) (out : string) :
  balanced self → balanced (extended self step out).
Proof.
  unfold balanced. destruct self as [cls o|steps outs]; simpl; [done|].
  rewrite !length_app. simpl. lia.
Qed.

Lemma extended_atomic (cls o : string) (step : Step Reader) (out : string) :
  extended (Atomic cls o) step out
  = Pipeline [(OpReader (Atomic cls o), [], ∅); step] [o; out].
Proof. done. Qed.

Lemma extended_output_instance (self : Reader) (step : Step Reader) (out : string) :
  output_instance (extended self step out) = out.
Proof.
  destruct self as [cls o|steps outs]; simpl; [done|].
  by rewrite last_snoc.
Qed.

(** ** The dispatch of [PipelineMixin] *)

Ltac run := unfold mbind, M_bind, bind, call_read, lift, ret; simpl.

(** Membership in a list that is given in full. *)
Ltac by_cases_on_list :=
  let H := fresh in
  simpl; intros H;
  repeat (apply elem_of_cons in H as [H|H]; [done|]);
  by apply elem_of_nil in H.

Lemma bind_returns {A B} (m : M A) (k : A → M B) (a : A) (t t' : Trace) :
  m t = (Py.Returns a, t') → (x ← m; k x) t = k a t'.
Proof. intros Hm. unfold mbind, M_bind, bind. by rewrite Hm. Qed.

Lemma bind_raises {A B} (m : M A) (k : A → M B) (e : Py.Exc) (t t' : Trace) :
  m t = (Py.Raises e, t') → (x ← m; k x) t = (Py.Raises e, t').
Proof. intros Hm. unfold mbind, M_bind, bind. by rewrite Hm. Qed.

(** The builtin [getattr] on the Functioner. *)
Lemma Functioner_getattr_own `{Collaborators Value Namespace} (f : Functioner) (item : string) :
  item ∈ Functioner.attributes →
  Functioner.getattr f item = ObjAttribute (reader f) item.
Proof. intros Hin. unfold Functioner.getattr. by rewrite bool_decide_eq_true_2. Qed.

Lemma Functioner_getattr_hook `{Collaborators Value Namespace} (f : Functioner) (item : string) :
  item ∉ Functioner.attributes →
  Functioner.getattr f item = ObjPipeline (Functioner.__getattr__ f item).
Proof. intros Hin. unfold Functioner.getattr. by rewrite bool_decide_eq_false_2. Qed.

Lemma bind_keywords_returns (kwargs : gmap string PyArg) :
  kwargs !! "self" = None → kwargs !! "func" = None →
  bind_keywords kwargs = Py.Returns kwargs.
Proof.
  intros Hself Hfunc. unfold bind_keywords.
  by rewrite !bool_decide_eq_false_2 by (by apply not_elem_of_dom).
Qed.

Lemma bind_keywords_inv (kwargs bound : gmap string PyArg) :
  bind_keywords kwargs = Py.Returns bound → bound = kwargs.
Proof. unfold bind_keywords. destruct (_ || _); congruence. Qed.

Section dispatch.
Context {Value Namespace : Type} `{!Collaborators Value Namespace} {errors : LookupErrors}.

Lemma eager_access (self : Reader) (item : string) (t : Trace) :
  (v ← call_read self; x ← lift (value_getitem v item); ret (ObjValue x)) t
  = (read_then_index self item, t ++ [ReadCall self]).
Proof.
  run. unfold read_then_index.
  destruct (read self) as [v|e]; [|done].
  by destruct (value_getitem v item).
Qed.

Lemma getitem_catalog (self : Reader) (item : string) (t : Trace) :
  Py.contains "Catalog" (output_instance self) = true →
  PipelineMixin.__getitem__ self item t
  = (read_then_index self item, t ++ [ReadCall self]).
Proof.
  intros Hcat. unfold PipelineMixin.__getitem__. rewrite Hcat.
  apply eager_access.
Qed.

Lemma getitem_value (self : Reader) (item : string) (t : Trace) :
  Py.contains "Catalog" (output_instance self) = false →
  PipelineMixin.__getitem__ self item t
  = (Py.Returns (ObjPipeline
       (extended self (GetItem, [PStr item], ∅) (output_instance self))), t).
Proof.
  intros Hcat. unfold PipelineMixin.__getitem__. rewrite Hcat.
  by destruct self.
Qed.

(** The two properties, by what the lookup behind them does. *)
Lemma eval_transform_returns (self : Reader) (t : Trace) :
  convert_classes_raises (output_instance self) = None →
  PipelineMixin.eval_transform self t = (Py.Returns (PipelineMixin.transform self), t).
Proof. intros Hok. unfold PipelineMixin.eval_transform. by rewrite Hok. Qed.

Lemma eval_transform_raises (self : Reader) (e : Py.Exc) (t : Trace) :
  convert_classes_raises (output_instance self) = Some e →
  PipelineMixin.eval_transform self t = (Py.Raises e, t).
Proof. intros Hok. unfold PipelineMixin.eval_transform. by rewrite Hok. Qed.

Lemma eval_namespaces_returns (self : Reader) (t : Trace) :
  get_namespaces_raises self = None →
  PipelineMixin.eval_namespaces self t = (Py.Returns (get_namespaces self), t).
Proof. intros Hok. unfold PipelineMixin.eval_namespaces. by rewrite Hok. Qed.

Lemma eval_namespaces_raises (self : Reader) (e : Py.Exc) (t : Trace) :
  get_namespaces_raises self = Some e →
  PipelineMixin.eval_namespaces self t = (Py.Raises e, t).
Proof. intros Hok. unfold PipelineMixin.eval_namespaces. by rewrite Hok. Qed.

(** The branches of [__getattr__]. *)
Lemma getattr_registry_raises (self : Reader) (item : string) (e : Py.Exc) (t : Trace) :
  convert_classes_raises (output_instance self) = Some e →
  PipelineMixin.__getattr__ self item t = (Py.Raises e, t).
Proof.
  intros Hraise. unfold PipelineMixin.__getattr__.
  by rewrite (bind_raises _ _ e t t) by (by apply eval_transform_raises).
Qed.

Lemma getattr_registered (self : Reader) (item : string) (t : Trace) :
  convert_classes_raises (output_instance self) = None →
  names_transformation (convert_classes (output_instance self)) item →
  PipelineMixin.__getattr__ self item t
  = (Py.Returns (Functioner.getattr (PipelineMixin.transform self) item), t).
Proof.
  intros Hok Hn. unfold PipelineMixin.__getattr__.
  rewrite (bind_returns _ _ _ t t (eval_transform_returns self t Hok)).
  rewrite bool_decide_eq_true_2 by (by apply elem_of_dir_Functioner).
  by rewrite (bind_returns _ _ _ t t (eval_transform_returns self t Hok)).
Qed.

Lemma getattr_catalog (self : Reader) (item : string) (t : Trace) :
  convert_classes_raises (output_instance self) = None →
  ¬ names_transformation (convert_classes (output_instance self)) item →
  Py.contains "Catalog" (output_instance self) = true →
  PipelineMixin.__getattr__ self item t
  = (read_then_index self item, t ++ [ReadCall self]).
Proof.
  intros Hok Hn Hcat. unfold PipelineMixin.__getattr__.
  rewrite (bind_returns _ _ _ t t (eval_transform_returns self t Hok)).
  rewrite bool_decide_eq_false_2 by (by rewrite elem_of_dir_Functioner).
  rewrite Hcat. apply eager_access.
Qed.

Lemma getattr_namespaces_raise (self : Reader) (item : string) (e : Py.Exc) (t : Trace) :
  convert_classes_raises (output_instance self) = None →
  ¬ names_transformation (convert_classes (output_instance self)) item →
  Py.contains "Catalog" (output_instance self) = false →
  get_namespaces_raises self = Some e →
  PipelineMixin.__getattr__ self item t = (Py.Raises e, t).
Proof.
  intros Hok Hn Hcat Hraise. unfold PipelineMixin.__getattr__.
  rewrite (bind_returns _ _ _ t t (eval_transform_returns self t Hok)).
  rewrite bool_decide_eq_false_2 by (by rewrite elem_of_dir_Functioner).
  rewrite Hcat.
  by rewrite (bind_raises _ _ e t t) by (by apply eval_namespaces_raises).
Qed.

Lemma getattr_namespace (self : Reader) (item : string) (ns : Namespace) (t : Trace) :
  convert_classes_raises (output_instance self) = None →
  get_namespaces_raises self = None →
  ¬ names_transformation (convert_classes (output_instance self)) item →
  Py.contains "Catalog" (output_instance self) = false →
  get_namespaces self !! item = Some ns →
  PipelineMixin.__getattr__ self item t = (Py.Returns (ObjNamespace ns), t).
Proof.
  intros Hok Hok' Hn Hcat Hns. unfold PipelineMixin.__getattr__.
  rewrite (bind_returns _ _ _ t t (eval_transform_returns self t Hok)).
  rewrite bool_decide_eq_false_2 by (by rewrite elem_of_dir_Functioner).
  rewrite Hcat.
  rewrite (bind_returns _ _ _ t t (eval_namespaces_returns self t Hok')).
  rewrite bool_decide_eq_true_2 by (apply elem_of_dom; eauto).
  rewrite (bind_returns _ _ _ t t (eval_namespaces_returns self t Hok')).
  run. unfold Py.dict_getitem. by rewrite Hns.
Qed.

Lemma getattr_fallback (self : Reader) (item : string) (t : Trace) :
  convert_classes_raises (output_instance self) = None →
  get_namespaces_raises self = None →
  ¬ names_transformation (convert_classes (output_instance self)) item →
  Py.contains "Catalog" (output_instance self) = false →
  item ∉ dom (get_namespaces self) →
  PipelineMixin.__getattr__ self item t
  = (Py.Returns (ObjPipeline
       (Functioner.__getattr__ (PipelineMixin.transform self) item)), t).
Proof.
  intros Hok Hok' Hn Hcat Hns. unfold PipelineMixin.__getattr__.
  rewrite (bind_returns _ _ _ t t (eval_transform_returns self t Hok)).
  rewrite bool_decide_eq_false_2 by (by rewrite elem_of_dir_Functioner).
  rewrite Hcat.
  rewrite (bind_returns _ _ _ t t (eval_namespaces_returns self t Hok')).
  rewrite bool_decide_eq_false_2 by done.
  by rewrite (bind_returns _ _ _ t t (eval_transform_returns self t Hok)).
Qed.

(** Whenever the mixin hands back a pipeline, it is [self] with one more
    step. *)
Lemma getitem_pipeline_extended (self : Reader) (item : string) (t t' : Trace) (p : Reader) :
  PipelineMixin.__getitem__ self item t = (Py.Returns (ObjPipeline p), t') →
  ∃ step out, p = extended self step out.
Proof.
  destruct (Py.contains "Catalog" (output_instance self)) eqn:Hcat.
  - rewrite getitem_catalog by done. unfold read_then_index.
    destruct (read self) as [v|e]; [|done].
    by destruct (value_getitem v item).
  - rewrite getitem_value by done. intros [= <- _]. eauto.
Qed.

Lemma getattr_pipeline_extended (self : Reader) (item : string) (t t' : Trace) (p : Reader) :
  PipelineMixin.__getattr__ self item t = (Py.Returns (ObjPipeline p), t') →
  ∃ step out, p = extended self step out.
Proof.
  destruct (convert_classes_raises (output_instance self)) as [e|] eqn:Hok.
  { by rewrite (getattr_registry_raises _ _ e). }
  destruct (names_transformation_decide (convert_classes (output_instance self)) item)
    as [Hn|Hn].
  { rewrite getattr_registered by done. unfold Functioner.getattr.
    destruct (bool_decide _); [done|].
    intros [= <- _]. apply (Functioner_getattr_extended (PipelineMixin.transform self)). }
  destruct (Py.contains "Catalog" (output_instance self)) eqn:Hcat.
  { rewrite getattr_catalog by done. unfold read_then_index.
    destruct (read self) as [v|e]; [|done].
    by destruct (value_getitem v item). }
  destruct (get_namespaces_raises self) as [e|] eqn:Hok'.
  { by rewrite (getattr_namespaces_raise _ _ e). }
  destruct (get_namespaces self !! item) as [ns|] eqn:Hns.
  { by rewrite (getattr_namespace _ _ ns). }
  rewrite getattr_fallback by (done || by apply not_elem_of_dom).
  intros [= <- _]. apply (Functioner_getattr_extended (PipelineMixin.transform self)).
Qed.

(** Outside the catalog regime [__getattr__] leaves the trace as it is,
    whether it returns or raises. *)
Lemma getattr_value_trace (self : Reader) (item : string) (t : Trace) :
  Py.contains "Catalog" (output_instance self) = false →
  (PipelineMixin.__getattr__ self item t).2 = t.
Proof.
  intros Hcat.
  destruct (convert_classes_raises (output_instance self)) as [e|] eqn:Hok.
  { by rewrite (getattr_registry_raises _ _ e). }
  destruct (names_transformation_decide (convert_classes (output_instance self)) item)
    as [Hn|Hn].
  { by rewrite getattr_registered. }
  destruct (get_namespaces_raises self) as [e|] eqn:Hok'.
  { by rewrite (getattr_namespaces_raise _ _ e). }
  destruct (get_namespaces self !! item) as [ns|] eqn:Hns.
  { by rewrite (getattr_namespace _ _ ns). }
  by rewrite getattr_fallback by (done || by apply not_elem_of_dom).
Qed.

(** [__dir__], by what the lookups do. *)
Lemma dir_returns (self : Reader) (t : Trace) :
  convert_classes_raises (output_instance self) = None →
  get_namespaces_raises self = None →
  PipelineMixin.__dir__ self t
  = (Py.Returns (Py.sorted (object___dir__ self
                            ++ Py.dir (Functioner.__dir__ (PipelineMixin.transform self))
                            ++ elements (dom (get_namespaces self)))), t).
Proof.
  intros Hok Hok'. unfold PipelineMixin.__dir__.
  rewrite (bind_returns _ _ _ t t (eval_transform_returns self t Hok)).
  by rewrite (bind_returns _ _ _ t t (eval_namespaces_returns self t Hok')).
Qed.

Lemma dir_registry_raises (self : Reader) (e : Py.Exc) (t : Trace) :
  convert_classes_raises (output_instance self) = Some e →
  PipelineMixin.__dir__ self t = (Py.Raises e, t).
Proof.
  intros Hraise. unfold PipelineMixin.__dir__.
  by rewrite (bind_raises _ _ e t t) by (by apply eval_transform_raises).
Qed.

Lemma dir_namespaces_raise (self : Reader) (e : Py.Exc) (t : Trace) :
  convert_classes_raises (output_instance self) = None →
  get_namespaces_raises self = Some e →
  PipelineMixin.__dir__ self t = (Py.Raises e, t).
Proof.
  intros Hok Hraise. unfold PipelineMixin.__dir__.
  rewrite (bind_returns _ _ _ t t (eval_transform_returns self t Hok)).
  by rewrite (bind_raises _ _ e t t) by (by apply eval_namespaces_raises).
Qed.

(** [apply], once the call is bound. *)
Lemma apply_bound (self : Reader) (func : Callable) (args : list PyArg)
    (o : option string) (kwargs : gmap string PyArg) (t : Trace) :
  bind_keywords kwargs = Py.Returns kwargs →
  PipelineMixin.apply (Value:=Value) (Namespace:=Namespace) self func args o kwargs t
  = (Py.Returns (ObjPipeline
       (Pipeline [(OpReader self, [], ∅);
                  (GenericFunc, args, <["func" := PCallable func]> kwargs)]
                 [output_instance self; Py.or_else o (output_instance self)])), t).
Proof. intros Hb. unfold PipelineMixin.apply. run. by rewrite Hb. Qed.

Lemma apply_pipeline_extended (self : Reader) (func : Callable) (args : list PyArg)
    (o : option string) (kwargs : gmap string PyArg) (t t' : Trace) (p : Reader) :
  PipelineMixin.apply (Value:=Value) (Namespace:=Namespace) self func args o kwargs t
  = (Py.Returns (ObjPipeline p), t') →
  balanced p.
Proof.
  unfold PipelineMixin.apply. run.
  destruct (bind_keywords kwargs); [|done]. by intros [= <- _].
Qed.

(** What [Functioner.__call__] holds has as many output types as steps. *)
Lemma Functioner_call_balanced (f : Functioner) (func : Callable) (args : list PyArg)
    (o : option string) (kwargs : gmap string PyArg)
    (steps : list (Step Reader)) (outs : list (option string)) :
  balanced (reader f) →
  Functioner.__call__ f func args o kwargs = Py.Returns (steps, outs) →
  length outs = length steps.
Proof.
  unfold balanced, Functioner.__call__. intros Hb.
  destruct (bind_keywords kwargs); [|done].
  destruct (reader f) as [cls lbl|steps0 outs0]; intros [= <- <-]; [done|].
  simpl in Hb. rewrite !length_app, length_fmap. simpl. lia.
Qed.

End dispatch.

(** ** The statements of the specification *)

(** A statement that names no [LookupErrors] is about a package whose
    registry and namespace lookups return ([lookups_return]); C3 and C7 are
    stated for lookups that may raise. *)

Section claims.
Context {Value Namespace : Type} `{!Collaborators Value Namespace}.

(** C1 (P2, catalog eagerness). For a reader or Pipeline whose
    [output_instance] contains the catalog marker, [r[x]] calls [read()]
    exactly once, on [r], hands back the materialised result indexed by [x]
    (or the exception either of the two raised), and never a pipeline. *)
Theorem C1_catalog_item_access_reads_once (self : Reader) (x : string) (t : Trace) :
  Py.contains "Catalog" (output_instance self) = true →
  PipelineMixin.__getitem__ self x t = (read_then_index self x, t ++ [ReadCall self])
  ∧ read_calls (PipelineMixin.__getitem__ self x t).2 = read_calls t + 1
  ∧ ∀ p, (PipelineMixin.__getitem__ self x t).1 ≠ Py.Returns (ObjPipeline p).
Proof.
  intros Hcat. rewrite getitem_catalog by done. simpl. split_and!.
  - done.
  - unfold read_calls. rewrite length_app. simpl. lia.
  - intros p. unfold read_then_index.
    destruct (read self) as [v|e]; [|done].
    by destruct (value_getitem v x).
Qed.

(** C2 (P1, deferral), amended. For an atomic reader whose [output_instance]
    does not contain the catalog marker: [r[x]] never calls [read()] and
    gives the two-step pipeline whose first step wraps [r]; so does [r.attr]
    whenever [attr] names a registered transformation (and is not the name of
    an attribute the Functioner has of its own, such as [reader] or
    [funcdict]) or is not the name of a registered namespace; for the name of
    a namespace that names no transformation, [r.attr] is that namespace
    object, again without any [read()]. *)
Theorem C2_atomic_value_reader_defers (cls o x attr : string) (t : Trace) :
  Py.contains "Catalog" o = false →
  PipelineMixin.__getitem__ (Atomic cls o) x t
  = (Py.Returns (ObjPipeline
       (Pipeline [(OpReader (Atomic cls o), [], ∅); (GetItem, [PStr x], ∅)] [o; o])), t)
  ∧ ((names_transformation (convert_classes o) attr → attr ∉ Functioner.attributes) →
     names_transformation (convert_classes o) attr ∨ attr ∉ dom (get_namespaces (Atomic cls o)) →
     ∃ step out, PipelineMixin.__getattr__ (Atomic cls o) attr t
       = (Py.Returns (ObjPipeline
            (Pipeline [(OpReader (Atomic cls o), [], ∅); step] [o; out])), t))
  ∧ (¬ names_transformation (convert_classes o) attr →
     ∀ ns, get_namespaces (Atomic cls o) !! attr = Some ns →
     PipelineMixin.__getattr__ (Atomic cls o) attr t = (Py.Returns (ObjNamespace ns), t)).
Proof.
  intros Hcat. split_and!.
  - by rewrite getitem_value.
  - intros Hown Hattr.
    destruct (Functioner_getattr_extended (PipelineMixin.transform (Atomic cls o)) attr)
      as [step [out Hext]].
    exists step, out.
    destruct (names_transformation_decide (convert_classes o) attr) as [Hn|Hn].
    + rewrite getattr_registered by done.
      rewrite Functioner_getattr_hook by auto. by rewrite Hext.
    + destruct Hattr as [?|Hns]; [done|].
      rewrite getattr_fallback by done. by rewrite Hext.
  - intros Hn ns Hns. by apply getattr_namespace.
Qed.


(** C4 (generic get-item step), amended. Item access through the mixin on a
    reader outside the catalog regime appends the get-item operation with the
    key as its only positional argument, and the new declared output type is
    the reader's current output type. Item access through the Functioner with
    a key that is no key of the registry dict appends the get-item operation
    and declares the literal key as the new output type; on an atomic reader
    that step carries the key as its only positional argument. *)
Theorem C4_getitem_appends_generic_step (self : Reader) (d : list (string * Callable))
    (item : string) (t : Trace) :
  funcdict_lookup d item = None →
  (Py.contains "Catalog" (output_instance self) = false →
   PipelineMixin.__getitem__ self item t
   = (Py.Returns (ObjPipeline
        (extended self (GetItem, [PStr item], ∅) (output_instance self))), t))
  ∧ (isinstance_Pipeline self = false →
     Functioner.__getitem__ {| reader := self; funcdict := d |} item
     = extended self (GetItem, [PStr item], ∅) item)
  ∧ (∃ args, Functioner.__getitem__ {| reader := self; funcdict := d |} item
             = extended self (GetItem, args, ∅) item).
Proof.
  intros Hmiss. split_and!.
  - apply getitem_value.
  - intros Hat. unfold Functioner.__getitem__. simpl. rewrite Hmiss.
    by destruct self.
  - unfold Functioner.__getitem__. simpl. rewrite Hmiss.
    destruct self; simpl; eauto.
Qed.

(** C5 (P3, registry precedence), amended. If [n] is the [__name__] of a
    callable registered for the reader's output type, and [n] is not the name
    of an attribute the Functioner has of its own ([reader], [funcdict], its
    methods, what it inherits), [r.n] is [r] with one more step that calls
    such a callable without arguments, under the output type the registry
    holds it under; no [read()] happens, whether or not the reader is in the
    catalog regime, and whether or not [n] also names a namespace. *)
Theorem C5_registered_name_takes_precedence (self : Reader) (n : string) (t : Trace) :
  names_transformation (convert_classes (output_instance self)) n →
  n ∉ Functioner.attributes →
  ∃ outtype func,
    (outtype, func) ∈ convert_classes (output_instance self)
    ∧ __name__ func = n
    ∧ head (Functioner.matching (PipelineMixin.transform self) n) = Some (outtype, func)
    ∧ PipelineMixin.__getattr__ self n t
      = (Py.Returns (ObjPipeline (extended self (OpCallable func, [], ∅) outtype)), t).
Proof.
  intros Hn Hown.
  destruct (matching_head (PipelineMixin.transform self) n Hn)
    as [outtype [func [rest [Hm [Hin Hname]]]]].
  exists outtype, func. split_and!; [done|done|by rewrite Hm|].
  rewrite getattr_registered by done.
  rewrite Functioner_getattr_hook by done.
  by rewrite (Functioner_getattr_hit _ _ _ _ _ Hm).
Qed.

(** C6 ([apply]), amended. For every reader, in the catalog regime or not,
    a call [apply(func, *args, output_instance=None, **kwargs)] never calls
    [read()]; unless it passes [func] or [self] once more as a keyword
    (Python refuses such a call before the body runs), it returns a pipeline
    whose second step is the generic function application carrying the
    supplied function under the keyword [func]; the final output type is the
    supplied [output_instance] when that is a non-empty string, and the
    reader's current output type when it is omitted or empty. *)
Theorem C6_apply_always_defers (self : Reader) (func : Callable) (args : list PyArg)
    (o : option string) (kwargs : gmap string PyArg) (t : Trace) :
  kwargs !! "self" = None →
  kwargs !! "func" = None →
  ∃ kw final,
    PipelineMixin.apply (Value:=Value) (Namespace:=Namespace) self func args o kwargs t
    = (Py.Returns (ObjPipeline
         (Pipeline [(OpReader self, [], ∅); (GenericFunc, args, kw)]
                   [output_instance self; final])), t)
    ∧ kw !! "func" = Some (PCallable func)
    ∧ (∀ k, k ≠ "func" → kw !! k = kwargs !! k)
    ∧ (∀ s, o = Some s → s ≠ "" → final = s)
    ∧ (o = None ∨ o = Some "" → final = output_instance self).
Proof.
  intros Hself Hfunc. eexists _, _. split.
  { apply apply_bound. by apply bind_keywords_returns. }
  split_and!.
  - apply lookup_insert_eq.
  - intros k Hk. by apply lookup_insert_ne.
  - intros s -> Hs. simpl. by rewrite decide_False.
  - by intros [-> | ->].
Qed.


(** C8 (first match wins). When several registered pairs carry a callable
    of the requested name, the Functioner takes the first of them in the
    iteration order of the registry dict, whatever comes after it. *)
Theorem C8_first_registered_pair_is_selected (r : Reader) (d1 d2 : list (string * Callable))
    (outtype : string) (func : Callable) (item : string) :
  Forall (λ p, __name__ p.2 ≠ item) d1 →
  __name__ func = item →
  Functioner.__getattr__ {| reader := r; funcdict := d1 ++ (outtype, func) :: d2 |} item
  = extended r (OpCallable func, [], ∅) outtype.
Proof.
  intros Hd1 Hname.
  destruct (matching_first d1 d2 r outtype func item Hd1 Hname) as [rest Hm].
  by rewrite (Functioner_getattr_hit _ _ _ _ _ Hm).
Qed.

(** C9 (the catalog test is a substring test), amended. A reader whose
    [output_instance] holds the text "Catalog" anywhere is read eagerly on
    every item access, and on every attribute access whose name is not the
    name of a registered transformation. *)
Theorem C9_catalog_marker_anywhere_is_eager (self : Reader) (pre post item : string) (t : Trace) :
  output_instance self = pre +:+ "Catalog" +:+ post →
  PipelineMixin.__getitem__ self item t = (read_then_index self item, t ++ [ReadCall self])
  ∧ (¬ names_transformation (convert_classes (output_instance self)) item →
     PipelineMixin.__getattr__ self item t
     = (read_then_index self item, t ++ [ReadCall self])).
Proof.
  intros Hlabel.
  assert (Py.contains "Catalog" (output_instance self) = true) as Hcat
    by (apply contains_split; eauto).
  split.
  - by apply getitem_catalog.
  - intros Hn. by apply getattr_catalog.
Qed.

End claims.

(** C10 ([Config] lookups of a missing key). For a key that is not among the
    instance's own entries, [__getitem__] gives the module-level default when
    there is one and raises [KeyError] otherwise, while [get] gives back the
    default it was passed, whatever the module-level table holds. *)
Theorem C10_config_missing_key (self : gmap string Config.Value) (k : string)
    (d : Config.Value) :
  k ∉ dom self →
  Config.__getitem__ self k
  = match Config.defaults !! k with
    | Some v => Py.Returns v
    | None => Py.Raises (Py.KeyError k)
    end
  ∧ Config.get self k d = Py.Returns d.
Proof.
  intros Hk. unfold Config.__getitem__, Config.get.
  rewrite !bool_decide_eq_false_2 by done. split; [|done].
  destruct (Config.defaults !! k) as [v|] eqn:Hd.
  - rewrite bool_decide_eq_true_2 by (apply elem_of_dom; eauto).
    unfold Py.dict_getitem. by rewrite Hd.
  - rewrite bool_decide_eq_false_2; [done|].
    by apply not_elem_of_dom.
Qed.

(** ** The statements at concrete inputs *)

Lemma C1_witness :
  Py.contains "Catalog" (output_instance Demo.PC) = true
  ∧ (PipelineMixin.__getitem__ Demo.PC "entry1" []
     = (read_then_index Demo.PC "entry1", [] ++ [ReadCall Demo.PC])
     ∧ read_calls (PipelineMixin.__getitem__ Demo.PC "entry1" []).2 = read_calls [] + 1
     ∧ ∀ p, (PipelineMixin.__getitem__ Demo.PC "entry1" []).1 ≠ Py.Returns (ObjPipeline p)).
Proof.
  split; [reflexivity|].
  apply (C1_catalog_item_access_reads_once Demo.PC "entry1" []). reflexivity.
Defined.

(** The second scenario of section 8: [C['entry1']] reads [C] once and gives
    the entry. *)
Example catalog_scenario :
  PipelineMixin.__getitem__ Demo.C "entry1" []
  = (Py.Returns (ObjValue (Demo.Entry "first entry")), [ReadCall Demo.C]).
Proof. reflexivity. Qed.

(** The first scenario of section 8: [R.head] is the two-step pipeline. *)
Example dataframe_scenario :
  PipelineMixin.__getattr__ Demo.R "head" []
  = (Py.Returns (ObjPipeline
       (Pipeline [(OpReader Demo.R, [], ∅); (OpCallable Demo.head_fn, [], ∅)]
                 ["pkg:DataFrame"; "pkg:DataFrame"])), []).
Proof. vm_compute. reflexivity. Qed.

(** C2 as stated fails: [np] is a namespace of the atomic data reader [R],
    and [R.np] is the namespace object, not a pipeline. *)
Lemma C2_counterexample :
  isinstance_Pipeline Demo.R = false
  ∧ Py.contains "Catalog" (output_instance Demo.R) = false
  ∧ PipelineMixin.__getattr__ Demo.R "np" [] = (Py.Returns (ObjNamespace "numpy namespace"), [])
  ∧ ∀ p, PipelineMixin.__getattr__ Demo.R "np" [] ≠ (Py.Returns (ObjPipeline p), []).
Proof.
  assert (PipelineMixin.__getattr__ Demo.R "np" []
          = (Py.Returns (ObjNamespace "numpy namespace"), [])) as Hnp
    by (vm_compute; reflexivity).
  split_and!; [reflexivity|reflexivity|exact Hnp|].
  intros p. rewrite Hnp. discriminate.
Qed.

Lemma C2_witness :
  Py.contains "Catalog" "pkg:DataFrame" = false
  ∧ names_transformation (convert_classes "pkg:DataFrame") "head"
  ∧ ("head" ∉ Functioner.attributes)
  ∧ PipelineMixin.__getitem__ Demo.R "x" []
    = (Py.Returns (ObjPipeline
         (Pipeline [(OpReader Demo.R, [], ∅); (GetItem, [PStr "x"], ∅)]
                   ["pkg:DataFrame"; "pkg:DataFrame"])), [])
  ∧ (∃ step out, PipelineMixin.__getattr__ Demo.R "head" []
       = (Py.Returns (ObjPipeline
            (Pipeline [(OpReader Demo.R, [], ∅); step] ["pkg:DataFrame"; out])), [])).
Proof.
  assert (names_transformation (convert_classes "pkg:DataFrame") "head") as Hn.
  { exists "pkg:DataFrame", Demo.head_fn. split; [left | reflexivity]. }
  assert ("head" ∉ Functioner.attributes) as Hown by by_cases_on_list.
  destruct (C2_atomic_value_reader_defers "CSVReader" "pkg:DataFrame" "x" "head" [])
    as [Hitem [Hattr _]]; [reflexivity|].
  split_and!; [reflexivity | exact Hn | exact Hown | exact Hitem
               | apply Hattr; [intros _; exact Hown | by left]].
Defined.

(** A registered callable whose name is that of an attribute of the
    Functioner builds no step on an atomic reader either. *)
Example atomic_reader_own_attribute :
  names_transformation (convert_classes (Collaborators:=Demo.shadow_world) "pkg:DataFrame")
    "reader"
  ∧ PipelineMixin.__getattr__ (Collaborators0:=Demo.shadow_world) Demo.R "reader" []
    = (Py.Returns (ObjAttribute Demo.R "reader"), []).
Proof.
  split; [|vm_compute; reflexivity].
  exists "pkg:Reader", Demo.reader_fn. split; [right; left | reflexivity].
Qed.



(** C4 as stated fails: after [R["x"]] the declared output type is still the
    reader's, not the key. *)
Lemma C4_counterexample :
  Py.contains "Catalog" (output_instance Demo.R) = false
  ∧ PipelineMixin.__getitem__ Demo.R "x" [] = (Py.Returns (ObjPipeline Demo.R_x), [])
  ∧ output_instance Demo.R_x = "pkg:DataFrame"
  ∧ output_instance Demo.R_x ≠ "x".
Proof.
  split_and!; [reflexivity | vm_compute; reflexivity | reflexivity | discriminate].
Qed.

Lemma C4_witness :
  funcdict_lookup (convert_classes "pkg:DataFrame") "x" = None
  ∧ Py.contains "Catalog" (output_instance Demo.R) = false
  ∧ isinstance_Pipeline Demo.R = false
  ∧ PipelineMixin.__getitem__ Demo.R "x" []
    = (Py.Returns (ObjPipeline
         (extended Demo.R (GetItem, [PStr "x"], ∅) (output_instance Demo.R))), [])
  ∧ Functioner.__getitem__ (PipelineMixin.transform Demo.R) "x"
    = extended Demo.R (GetItem, [PStr "x"], ∅) "x".
Proof.
  destruct (C4_getitem_appends_generic_step Demo.R (convert_classes "pkg:DataFrame") "x" [])
    as [Hmixin [Hatomic _]]; [reflexivity|].
  split_and!; [reflexivity | reflexivity | reflexivity | by apply Hmixin | by apply Hatomic].
Defined.

(** On a pipeline the Functioner appends the get-item operation without the
    key: the branch passes [()] where the atomic branch passes [arg]. *)
Example Functioner_getitem_on_pipeline :
  Functioner.__getitem__ (PipelineMixin.transform Demo.PR) "x"
  = Pipeline [(OpReader Demo.R, [], ∅); (OpCallable Demo.head_fn, [], ∅); (GetItem, [], ∅)]
             ["pkg:DataFrame"; "pkg:DataFrame"; "x"].
Proof. vm_compute. reflexivity. Qed.

(** C5 as stated fails: in a package that registers a callable named
    [reader] for data frames, [R.reader] is the attribute [reader] of the
    Functioner, found by ordinary lookup; no pipeline is built and no step
    calls the callable. *)
Lemma C5_counterexample :
  names_transformation
    (convert_classes (Collaborators:=Demo.shadow_world) (output_instance Demo.R)) "reader"
  ∧ PipelineMixin.__getattr__ (Collaborators0:=Demo.shadow_world) Demo.R "reader" []
    = (Py.Returns (ObjAttribute Demo.R "reader"), [])
  ∧ ∀ p t, PipelineMixin.__getattr__ (Collaborators0:=Demo.shadow_world) Demo.R "reader" []
           ≠ (Py.Returns (ObjPipeline p), t).
Proof.
  assert (PipelineMixin.__getattr__ (Collaborators0:=Demo.shadow_world) Demo.R "reader" []
          = (Py.Returns (ObjAttribute Demo.R "reader"), [])) as Hr
    by (vm_compute; reflexivity).
  split_and!; [|exact Hr|].
  - exists "pkg:Reader", Demo.reader_fn. split; [right; left | reflexivity].
  - intros p t. rewrite Hr. discriminate.
Qed.

Lemma C5_witness :
  names_transformation (convert_classes (output_instance Demo.C)) "head"
  ∧ ("head" ∉ Functioner.attributes)
  ∧ ∃ outtype func,
      (outtype, func) ∈ convert_classes (output_instance Demo.C)
      ∧ __name__ func = "head"
      ∧ head (Functioner.matching (PipelineMixin.transform Demo.C) "head") = Some (outtype, func)
      ∧ PipelineMixin.__getattr__ Demo.C "head" []
        = (Py.Returns (ObjPipeline (extended Demo.C (OpCallable func, [], ∅) outtype)), []).
Proof.
  assert (names_transformation (convert_classes (output_instance Demo.C)) "head") as Hn.
  { exists "pkg:DataFrame", Demo.head_fn. split; [left | reflexivity]. }
  assert ("head" ∉ Functioner.attributes) as Hown by by_cases_on_list.
  split_and!; [exact Hn | exact Hown
               | apply (C5_registered_name_takes_precedence Demo.C "head" [] Hn Hown)].
Defined.

(** C6 as stated fails: with the empty string supplied as [output_instance]
    the final output type is the reader's own; and a call that passes [func]
    once more as a keyword returns no pipeline, it ends in [TypeError]. *)
Lemma C6_counterexample :
  PipelineMixin.apply (Value:=Demo.Value) (Namespace:=string)
    Demo.R Demo.head_fn [] (Some "") ∅ []
  = (Py.Returns (ObjPipeline Demo.R_applied), [])
  ∧ output_instance Demo.R_applied = "pkg:DataFrame"
  ∧ output_instance Demo.R_applied ≠ ""
  ∧ PipelineMixin.apply (Value:=Demo.Value) (Namespace:=string)
      Demo.R Demo.head_fn [] None {["func" := PCallable Demo.to_dask]} []
    = (Py.Raises (Py.TypeError "got multiple values for argument"), []).
Proof.
  split_and!; [vm_compute; reflexivity | reflexivity | discriminate | vm_compute; reflexivity].
Qed.

Lemma C6_witness :
  ({["n" := PInt 5]} : gmap string PyArg) !! "self" = None
  ∧ ({["n" := PInt 5]} : gmap string PyArg) !! "func" = None
  ∧ ∃ kw final,
      PipelineMixin.apply (Value:=Demo.Value) (Namespace:=string)
        Demo.C Demo.head_fn [] (Some "pkg:Series") {["n" := PInt 5]} []
      = (Py.Returns (ObjPipeline
           (Pipeline [(OpReader Demo.C, [], ∅); (GenericFunc, [], kw)]
                     [output_instance Demo.C; final])), [])
      ∧ kw !! "func" = Some (PCallable Demo.head_fn)
      ∧ kw !! "n" = Some (PInt 5)
      ∧ final = "pkg:Series".
Proof.
  assert (({["n" := PInt 5]} : gmap string PyArg) !! "self" = None) as Hself by reflexivity.
  assert (({["n" := PInt 5]} : gmap string PyArg) !! "func" = None) as Hfunc by reflexivity.
  destruct (C6_apply_always_defers (Value:=Demo.Value) (Namespace:=string)
              Demo.C Demo.head_fn [] (Some "pkg:Series") {["n" := PInt 5]} [] Hself Hfunc)
    as (kw & final & Happly & Hkw & Hrest & Hgiven & _).
  split_and!; [exact Hself | exact Hfunc |].
  exists kw, final. split_and!; [exact Happly | exact Hkw | |].
  - rewrite Hrest by discriminate. reflexivity.
  - by apply (Hgiven "pkg:Series").
Defined.



(** The same for the namespace lookup. *)
Example dir_namespaces_fail :
  PipelineMixin.__dir__ (errors:=Demo.namespaces_fail) Demo.R []
  = (Py.Raises (Py.Failure "No module named numpy"), []).
Proof. vm_compute. reflexivity. Qed.

Lemma C8_witness :
  Forall (λ p : string * Callable, __name__ p.2 ≠ "convert") [("pkg:DataFrame", Demo.head_fn)]
  ∧ __name__ Demo.to_dask = "convert"
  ∧ __name__ Demo.to_polars = "convert"
  ∧ Functioner.__getattr__
      {| reader := Demo.R;
         funcdict := [("pkg:DataFrame", Demo.head_fn)]
                     ++ ("dask:DataFrame", Demo.to_dask)
                     :: [("polars:DataFrame", Demo.to_polars)] |} "convert"
    = extended Demo.R (OpCallable Demo.to_dask, [], ∅) "dask:DataFrame".
Proof.
  assert (Forall (λ p : string * Callable, __name__ p.2 ≠ "convert")
            [("pkg:DataFrame", Demo.head_fn)]) as Hd1
    by (repeat constructor; discriminate).
  split_and!; [exact Hd1 | reflexivity | reflexivity |].
  apply (C8_first_registered_pair_is_selected Demo.R _ _ _ _ "convert" Hd1). reflexivity.
Defined.

(** C9 as stated fails for attribute access: [head] is registered for the
    catalog reader [C], and [C.head] is a pipeline built without any
    [read()]. *)
Lemma C9_counterexample :
  Py.contains "Catalog" (output_instance Demo.C) = true
  ∧ PipelineMixin.__getattr__ Demo.C "head" [] = (Py.Returns (ObjPipeline Demo.C_head), [])
  ∧ PipelineMixin.__getattr__ Demo.C "head" []
    ≠ (read_then_index Demo.C "head", [] ++ [ReadCall Demo.C]).
Proof.
  assert (PipelineMixin.__getattr__ Demo.C "head" []
          = (Py.Returns (ObjPipeline Demo.C_head), [])) as Hh
    by (vm_compute; reflexivity).
  split_and!; [reflexivity | exact Hh |].
  rewrite Hh. discriminate.
Qed.

Lemma C9_witness :
  output_instance Demo.L = "pkg.tools:" +:+ "Catalog" +:+ "SummaryTable"
  ∧ ¬ names_transformation (convert_classes (output_instance Demo.L)) "rows"
  ∧ PipelineMixin.__getitem__ Demo.L "rows" []
    = (read_then_index Demo.L "rows", [] ++ [ReadCall Demo.L])
  ∧ PipelineMixin.__getattr__ Demo.L "rows" []
    = (read_then_index Demo.L "rows", [] ++ [ReadCall Demo.L]).
Proof.
  assert (¬ names_transformation (convert_classes (output_instance Demo.L)) "rows") as Hn.
  { intros [o [c [Hin _]]]. by apply not_elem_of_nil in Hin. }
  destruct (C9_catalog_marker_anywhere_is_eager Demo.L "pkg.tools:" "SummaryTable" "rows" [])
    as [Hitem Hattr]; [reflexivity|].
  split_and!; [reflexivity | exact Hn | exact Hitem | by apply Hattr].
Defined.

Lemma C10_witness :
  ("logging" ∉ dom Demo.conf)
  ∧ ("persist_path" ∉ dom Demo.conf)
  ∧ Config.__getitem__ Demo.conf "logging" = Py.Returns (Config.VStr "INFO")
  ∧ Config.get Demo.conf "logging" Config.VNone = Py.Returns Config.VNone
  ∧ Config.__getitem__ Demo.conf "persist_path" = Py.Raises (Py.KeyError "persist_path").
Proof.
  assert ("logging" ∉ dom Demo.conf) as H1
    by (unfold Demo.conf; rewrite dom_singleton_L; apply not_elem_of_singleton; discriminate).
  assert ("persist_path" ∉ dom Demo.conf) as H2
    by (unfold Demo.conf; rewrite dom_singleton_L; apply not_elem_of_singleton; discriminate).
  destruct (C10_config_missing_key Demo.conf "logging" Config.VNone H1) as [Hget1 Hget2].
  destruct (C10_config_missing_key Demo.conf "persist_path" Config.VNone H2) as [Hget3 _].
  split_and!; [exact H1 | exact H2 | exact Hget1 | exact Hget2 | exact Hget3].
Defined.

(** * Further properties of the code *)

(** ** Functioner *)

Lemma funcdict_lookup_key (d : list (string * Callable)) (item : string) :
  item ∈ d.*1 →
  ∃ func, funcdict_lookup d item = Some func ∧ (item, func) ∈ d.
Proof.
  induction d as [|[k f] d IH]; simpl.
  - intros Hin. by apply not_elem_of_nil in Hin.
  - intros Hin. destruct (decide (k = item)) as [->|Hne].
    + exists f. split; [done | left].
    + apply elem_of_cons in Hin as [Heq|Hin]; [done|].
      destruct (IH Hin) as [func [Hl Hd]]. exists func. split; [done | by right].
Qed.

(** X1. Every key that [_ipython_key_completions_] offers selects the
    callable registered under it: [transform[key]] is the reader with one
    more step that calls this callable without arguments, and the declared
    output type is the key. *)
Theorem X1_completion_key_selects_registered_callable (f : Functioner) (item : string) :
  item ∈ Functioner._ipython_key_completions_ f →
  ∃ func,
    (item, func) ∈ funcdict f
    ∧ Functioner.__getitem__ f item = extended (reader f) (OpCallable func, [], ∅) item
    ∧ output_instance (Functioner.__getitem__ f item) = item.
Proof.
  intros Hin. destruct (funcdict_lookup_key (funcdict f) item Hin) as [func [Hl Hd]].
  exists func. split; [done|].
  assert (Functioner.__getitem__ f item = extended (reader f) (OpCallable func, [], ∅) item)
    as Hget.
  { unfold Functioner.__getitem__. rewrite Hl. by destruct (reader f). }
  split; [done|]. rewrite Hget. apply extended_output_instance.
Qed.

(** X2. [Functioner.__dir__] tells what [Functioner.__getattr__] does: a
    listed name gives a step that calls a registered callable of that name,
    under the output type it is registered for; a name that is not listed
    gives the generic method call with [method_name] set to the name, and the
    output type stays the reader's. *)
Theorem X2_functioner_getattr_follows_dir (f : Functioner) (x : string) :
  (x ∈ Functioner.__dir__ f →
   ∃ outtype func,
     (outtype, func) ∈ funcdict f ∧ __name__ func = x
     ∧ Functioner.__getattr__ f x = extended (reader f) (OpCallable func, [], ∅) outtype
     ∧ output_instance (Functioner.__getattr__ f x) = outtype)
  ∧ (x ∉ Functioner.__dir__ f →
     Functioner.__getattr__ f x
     = extended (reader f) (Method, [], {["method_name" := PStr x]})
                (output_instance (reader f))
     ∧ output_instance (Functioner.__getattr__ f x) = output_instance (reader f)).
Proof.
  split.
  - intros Hin. apply elem_of_Functioner_dir in Hin.
    destruct (matching_head f x Hin) as [outtype [func [rest [Hm [Hd Hname]]]]].
    exists outtype, func. rewrite (Functioner_getattr_hit _ _ _ _ _ Hm).
    split_and!; [done|done|done|apply extended_output_instance].
  - intros Hnot.
    assert (Functioner.matching f x = []) as Hm.
    { apply matching_nil. intros Hn. by apply Hnot, elem_of_Functioner_dir. }
    rewrite (Functioner_getattr_miss _ _ Hm).
    split; [done | apply extended_output_instance].
Qed.

(** ** PipelineMixin *)

Section more_dispatch.
Context {Value Namespace : Type} `{!Collaborators Value Namespace}.


Lemma getitems_cons_value (self : Reader) (k : string) (keys : list string) (t : Trace) :
  Py.contains "Catalog" (output_instance self) = false →
  getitems self (k :: keys) t
  = getitems (extended self (GetItem, [PStr k], ∅) (output_instance self)) keys t.
Proof.
  intros Hcat. cbn [getitems]. unfold mbind, M_bind, bind.
  by rewrite getitem_value.
Qed.

Lemma output_instance_snoc (steps : list (Step Reader)) (outs : list string)
    (step : Step Reader) (o : string) :
  output_instance (Pipeline (steps ++ [step]) (outs ++ [o])) = o.
Proof. simpl. by rewrite last_snoc. Qed.

Lemma getitems_pipeline (keys : list string) (steps : list (Step Reader))
    (outs : list string) (t : Trace) :
  Py.contains "Catalog" (output_instance (Pipeline steps outs)) = false →
  getitems (Pipeline steps outs) keys t
  = (Py.Returns (ObjPipeline
       (Pipeline (steps ++ ((λ key, (GetItem, [PStr key], ∅)) <$> keys))
                 (outs ++ replicate (length keys)
                                    (output_instance (Pipeline steps outs))))), t).
Proof.
  revert steps outs. induction keys as [|key keys IH]; intros steps outs Hcat.
  - simpl. by rewrite !app_nil_r.
  - rewrite getitems_cons_value by done.
    cbn [extended]. unfold with_step.
    rewrite IH by (by rewrite output_instance_snoc).
    rewrite output_instance_snoc. simpl. by rewrite <- !app_assoc.
Qed.

(** X4. A chain of item accesses [r[k1]...[kn]] on a reader outside the
    catalog regime never calls [read()]: it is the pipeline of the reader's
    steps followed by one get-item step per key, in the order of the keys,
    and every new output type is the reader's. *)
Theorem X4_item_access_chain_is_deferred (self : Reader) (k : string) (keys : list string)
    (t : Trace) :
  Py.contains "Catalog" (output_instance self) = false →
  getitems self (k :: keys) t
  = (Py.Returns (ObjPipeline
       (Pipeline (base_steps self ++ ((λ key, (GetItem, [PStr key], ∅)) <$> (k :: keys)))
                 (base_out_instances self
                  ++ replicate (length (k :: keys)) (output_instance self)))), t).
Proof.
  intros Hcat. rewrite getitems_cons_value by done.
  destruct self as [cls o|steps outs].
  - cbn [extended output_instance].
    rewrite getitems_pipeline by done. simpl. done.
  - cbn [extended]. unfold with_step.
    rewrite getitems_pipeline by (by rewrite output_instance_snoc).
    rewrite output_instance_snoc. simpl. by rewrite <- !app_assoc.
Qed.

(** X5. In the catalog regime a namespace is never handed back: a name that
    [__dir__] lists because it is the name of a registered namespace, and
    that names no transformation, makes the attribute access read the catalog
    and index it. *)
Theorem X5_catalog_regime_shadows_namespaces (self : Reader) (item : string) (t : Trace) :
  Py.contains "Catalog" (output_instance self) = true →
  (∀ ns t', PipelineMixin.__getattr__ self item t ≠ (Py.Returns (ObjNamespace ns), t'))
  ∧ (item ∈ dom (get_namespaces self) →
     ¬ names_transformation (convert_classes (output_instance self)) item →
     (∃ names, PipelineMixin.__dir__ self t = (Py.Returns names, t) ∧ item ∈ names)
     ∧ PipelineMixin.__getattr__ self item t
       = (read_then_index self item, t ++ [ReadCall self])).
Proof.
  intros Hcat. split.
  - intros ns t'.
    destruct (names_transformation_decide (convert_classes (output_instance self)) item)
      as [Hn|Hn].
    + rewrite getattr_registered by done. unfold Functioner.getattr.
      by destruct (bool_decide _).
    + rewrite getattr_catalog by done. unfold read_then_index.
      destruct (read self) as [v|e]; [|done].
      by destruct (value_getitem v item).
  - intros Hns Hn. split; [|by apply getattr_catalog].
    eexists. split; [by apply dir_returns|].
    rewrite elem_of_sorted, !elem_of_app, elem_of_elements. by right; right.
Qed.

End more_dispatch.

Section regime_of_result.
Context {Value Namespace : Type} `{!Collaborators Value Namespace}.

(** X24. The regime of what an attribute access hands back is decided by
    the output type its step declares: when the first callable registered
    under the name (a name that is none of the Functioner's own attributes)
    is registered for a catalog type, an item access on the new pipeline
    materialises that pipeline (and not the reader it was built on);
    otherwise the item access is deferred once more. *)
Theorem X24_declared_type_decides_next_access (self : Reader) (n x outtype : string)
    (func : Callable) (t : Trace) :
  head (Functioner.matching (PipelineMixin.transform self) n) = Some (outtype, func) →
  n ∉ Functioner.attributes →
  PipelineMixin.__getattr__ self n t
  = (Py.Returns (ObjPipeline (extended self (OpCallable func, [], ∅) outtype)), t)
  ∧ (Py.contains "Catalog" outtype = true →
     PipelineMixin.__getitem__ (extended self (OpCallable func, [], ∅) outtype) x t
     = (read_then_index (extended self (OpCallable func, [], ∅) outtype) x,
        t ++ [ReadCall (extended self (OpCallable func, [], ∅) outtype)]))
  ∧ (Py.contains "Catalog" outtype = false →
     PipelineMixin.__getitem__ (extended self (OpCallable func, [], ∅) outtype) x t
     = (Py.Returns (ObjPipeline
          (extended (extended self (OpCallable func, [], ∅) outtype)
                    (GetItem, [PStr x], ∅) outtype)), t)).
Proof.
  intros Hhead Hown.
  destruct (Functioner.matching (PipelineMixin.transform self) n) as [|[o c] rest] eqn:Hm;
    [done|]. injection Hhead as -> ->.
  assert (names_transformation (convert_classes (output_instance self)) n) as Hn.
  { destruct (names_transformation_decide (convert_classes (output_instance self)) n)
      as [Hn|Hn]; [done|].
    apply (matching_nil (PipelineMixin.transform self)) in Hn. congruence. }
  split_and!.
  - rewrite getattr_registered by done.
    rewrite Functioner_getattr_hook by done.
    by rewrite (Functioner_getattr_hit _ _ _ _ _ Hm).
  - intros Hcat. apply getitem_catalog. by rewrite extended_output_instance.
  - intros Hcat. rewrite getitem_value by (by rewrite extended_output_instance).
    by rewrite extended_output_instance.
Qed.

End regime_of_result.

(** ** Config: lookups, [reset] and [set] *)

(** X6. Writing an entry and reading it back: after [self[k] = v], both
    [self[k]] and [self.get(k, d)] give [v], whatever the defaults hold for
    [k], and the lookup of any other key is what it was. *)
Theorem X6_config_setitem_roundtrip (self : gmap string Config.Value) (k k' : string)
    (v d : Config.Value) :
  Config.__getitem__ (<[k := v]> self) k = Py.Returns v
  ∧ Config.get (<[k := v]> self) k d = Py.Returns v
  ∧ (k' ≠ k →
     Config.__getitem__ (<[k := v]> self) k' = Config.__getitem__ self k'
     ∧ Config.get (<[k := v]> self) k' d = Config.get self k' d).
Proof.
  unfold Config.__getitem__, Config.get, Py.dict_getitem.
  split_and!.
  - rewrite bool_decide_eq_true_2
      by (apply elem_of_dom; rewrite lookup_insert_eq; eauto).
    by rewrite lookup_insert_eq.
  - rewrite bool_decide_eq_true_2
      by (apply elem_of_dom; rewrite lookup_insert_eq; eauto).
    by rewrite lookup_insert_eq.
  - intros Hne.
    assert (bool_decide (k' ∈ dom (<[k := v]> self)) = bool_decide (k' ∈ dom self)) as ->.
    { apply bool_decide_ext. rewrite !elem_of_dom. by rewrite lookup_insert_ne. }
    by rewrite lookup_insert_ne.
Qed.

Lemma Config_lookup_stored (self : gmap string Config.Value) (k : string) (v : Config.Value) :
  self !! k = Some v → Config.__getitem__ self k = Py.Returns v.
Proof.
  intros Hk. unfold Config.__getitem__, Py.dict_getitem.
  rewrite bool_decide_eq_true_2 by (apply elem_of_dom; eauto).
  by rewrite Hk.
Qed.

Lemma Config_lookup_default (self : gmap string Config.Value) (k : string) (v : Config.Value) :
  self !! k = None → Config.defaults !! k = Some v →
  Config.__getitem__ self k = Py.Returns v.
Proof.
  intros Hk Hd. unfold Config.__getitem__, Py.dict_getitem.
  rewrite bool_decide_eq_false_2 by (by apply not_elem_of_dom).
  rewrite bool_decide_eq_true_2 by (apply elem_of_dom; eauto).
  by rewrite Hd.
Qed.

(** X7. [reset] forgets every stored entry: afterwards indexing and [get]
    both give the module-level default of a key that has one, and for any
    other key indexing raises [KeyError] while [get] gives the default it was
    passed. *)
Theorem X7_reset_restores_defaults (self : gmap string Config.Value) (k : string)
    (d : Config.Value) :
  Config.reset self = Config.defaults
  ∧ Config.__getitem__ (Config.reset self) k
    = match Config.defaults !! k with
      | Some v => Py.Returns v
      | None => Py.Raises (Py.KeyError k)
      end
  ∧ Config.get (Config.reset self) k d
    = match Config.defaults !! k with
      | Some v => Py.Returns v
      | None => Py.Returns d
      end.
Proof.
  assert (Config.reset self = Config.defaults) as ->.
  { unfold Config.reset, Config.dict_update. apply (right_id_L ∅ (∪)). }
  split; [done|].
  unfold Config.__getitem__, Config.get, Py.dict_getitem.
  destruct (Config.defaults !! k) as [v|] eqn:Hd.
  - by rewrite !bool_decide_eq_true_2 by (apply elem_of_dom; eauto).
  - by rewrite !bool_decide_eq_false_2 by (by apply not_elem_of_dom).
Qed.

(** X8. [with conf.set(...): body] whose body ends normally leaves the
    configuration exactly as it was before [set], whatever the update was,
    whatever [merge_dicts] computes and whatever the body wrote. *)
Theorem X8_with_set_restores_on_normal_exit {V E A : Type}
    (merge_dicts : gmap string V → gmap string V → gmap string V)
    (self : gmap string V) (update_dict : option (gmap string V)) (kw : gmap string V)
    (body : gmap string V → (E + A) * gmap string V) (a : A) (after : gmap string V) :
  body (Config.set merge_dicts self update_dict kw).1 = (inr a, after) →
  Config.with_set merge_dicts self update_dict kw body = (inr a, self).
Proof.
  unfold Config.with_set, Config.set. simpl. intros ->.
  unfold Config._unset, Config.dict_update.
  by rewrite (right_id_L ∅ (∪)).
Qed.

(** X9. When the body raises, the configuration is not put back: it stays
    as the body left it, and the exception goes on to the caller. *)
Theorem X9_with_set_keeps_changes_on_exception {V E A : Type}
    (merge_dicts : gmap string V → gmap string V → gmap string V)
    (self : gmap string V) (update_dict : option (gmap string V)) (kw : gmap string V)
    (body : gmap string V → (E + A) * gmap string V) (e : E) (after : gmap string V) :
  body (Config.set merge_dicts self update_dict kw).1 = (inl e, after) →
  Config.with_set merge_dicts self update_dict kw body = (inl e, after).
Proof.
  unfold Config.with_set, Config.set. simpl. by intros ->.
Qed.

(** ** [intake_path_dirs] *)

Lemma split_posix_from_cons (after_colon : bool) (s : string) :
  ∃ piece more, Config.split_posix_from after_colon s = piece :: more.
Proof.
  revert after_colon. induction s as [|c rest IH]; intros after_colon; simpl.
  - eauto.
  - destruct (_ && _); [eauto|].
    destruct (IH (bool_decide (c = ":"%char))) as [piece [more ->]]. simpl. eauto.
Qed.

Lemma split_nt_cons (s : string) :
  ∃ piece more, Config.split_nt s = piece :: more.
Proof.
  induction s as [|c rest IH]; simpl.
  - eauto.
  - destruct (bool_decide _); [eauto|].
    destruct IH as [piece [more ->]]. simpl. eauto.
Qed.

Lemma concat_cons_cons (sep x y : string) (l : list string) :
  String.concat sep (x :: y :: l) = x +:+ sep +:+ String.concat sep (y :: l).
Proof. reflexivity. Qed.

Lemma concat_push (sep : string) (c : ascii) (piece : string) (more : list string) :
  String.concat sep (Config.push c (piece :: more))
  = String c (String.concat sep (piece :: more)).
Proof. destruct more; reflexivity. Qed.

Lemma split_posix_from_join (after_colon : bool) (s : string) :
  String.concat ":" (Config.split_posix_from after_colon s) = s.
Proof.
  revert after_colon. induction s as [|c rest IH]; intros after_colon; simpl.
  - done.
  - destruct (bool_decide (c = ":"%char)) eqn:Hc; simpl.
    + apply bool_decide_eq_true in Hc as ->.
      destruct (negb after_colon && negb (Config.blocks_split rest)).
      * destruct (split_posix_from_cons true rest) as [piece [more Hs]].
        specialize (IH true). rewrite Hs in *.
        rewrite concat_cons_cons, IH. reflexivity.
      * destruct (split_posix_from_cons true rest) as [piece [more Hs]].
        specialize (IH true). rewrite Hs in *.
        by rewrite concat_push, IH.
    + destruct (split_posix_from_cons false rest) as [piece [more Hs]].
      specialize (IH false). rewrite Hs in *.
      by rewrite concat_push, IH.
Qed.

Lemma split_nt_join (s : string) : String.concat ";" (Config.split_nt s) = s.
Proof.
  induction s as [|c rest IH]; simpl.
  - done.
  - destruct (split_nt_cons rest) as [piece [more Hs]]. rewrite Hs in *.
    destruct (bool_decide (c = ";"%char)) eqn:Hc.
    + apply bool_decide_eq_true in Hc as ->.
      rewrite concat_cons_cons, IH. reflexivity.
    + by rewrite concat_push, IH.
Qed.

(** X10. Splitting loses nothing: a string path always gives a list with at
    least one entry, and joining the entries with the separator of the
    platform (a semicolon on Windows, a colon elsewhere) gives the path
    back. *)
Theorem X10_path_dirs_join_back (os_name s : string) :
  ∃ piece more,
    Config.intake_path_dirs os_name (Config.VStr s) = inr (Config.VList (piece :: more))
    ∧ String.concat (if decide (os_name = "nt") then ";" else ":") (piece :: more) = s.
Proof.
  unfold Config.intake_path_dirs. destruct (decide (os_name = "nt")) as [Hnt|Hnt].
  - destruct (split_nt_cons s) as [piece [more Hs]].
    exists piece, more. rewrite Hs. split; [done|]. rewrite <- Hs. apply split_nt_join.
  - destruct (split_posix_from_cons false s) as [piece [more Hs]].
    exists piece, more. unfold Config.split_posix. rewrite Hs. split; [done|].
    rewrite <- Hs. apply split_posix_from_join.
Qed.

Lemma blocks_split_push (c : ascii) (piece rest : string) :
  Config.blocks_split (String c piece) = Config.blocks_split (String c rest).
Proof. reflexivity. Qed.

(** The first piece begins like the text, or is empty. *)
Lemma split_posix_from_head (after_colon : bool) (s piece : string) (more : list string) :
  Config.split_posix_from after_colon s = piece :: more →
  Config.blocks_split piece = true → Config.blocks_split s = true.
Proof.
  destruct s as [|c rest]; simpl.
  - by intros [= <- <-].
  - destruct (_ && _).
    + by intros [= <- <-].
    + destruct (split_posix_from_cons (bool_decide (c = ":"%char)) rest) as [p [m ->]].
      simpl. by intros [= <- <-].
Qed.

Lemma split_posix_from_tail (after_colon : bool) (s : string) :
  Forall (λ piece, Config.blocks_split piece = false)
         (tail (Config.split_posix_from after_colon s)).
Proof.
  revert after_colon. induction s as [|c rest IH]; intros after_colon; simpl.
  - constructor.
  - destruct (bool_decide (c = ":"%char) && negb after_colon
              && negb (Config.blocks_split rest)) eqn:Hsplit.
    + simpl. apply andb_true_iff in Hsplit as [_ Hrest].
      apply negb_true_iff in Hrest.
      destruct (split_posix_from_cons true rest) as [piece [more Hs]].
      specialize (IH true). rewrite Hs in *. simpl in IH.
      constructor; [|done].
      destruct (Config.blocks_split piece) eqn:Hp; [|done].
      by rewrite (split_posix_from_head _ _ _ _ Hs Hp) in Hrest.
    + destruct (split_posix_from_cons (bool_decide (c = ":"%char)) rest) as [piece [more Hs]].
      specialize (IH (bool_decide (c = ":"%char))). rewrite Hs in *. done.
Qed.

(** X11. Off Windows, no entry but the first can begin with a slash or a
    colon: a colon that stands before a slash is never a separator, so an
    absolute path is never cut off from what precedes it. *)
Theorem X11_posix_entries_never_start_with_slash (os_name s : string) (l : list string) :
  os_name ≠ "nt" →
  Config.intake_path_dirs os_name (Config.VStr s) = inr (Config.VList l) →
  Forall (λ piece, ∀ rest, piece ≠ String "/" rest ∧ piece ≠ String ":" rest) (tail l).
Proof.
  intros Hnt. unfold Config.intake_path_dirs. rewrite decide_False by done.
  intros [= <-]. unfold Config.split_posix.
  eapply Forall_impl; [apply split_posix_from_tail|].
  intros piece Hp rest. split; intros ->; by vm_compute in Hp.
Qed.

Lemma guarded_is_one_piece (s : string) (after_colon : bool) :
  colons_guarded s = true → Config.split_posix_from after_colon s = [s].
Proof.
  revert after_colon. induction s as [|c rest IH]; intros after_colon; simpl; [done|].
  intros [Hc Hrest]%andb_true_iff.
  destruct (bool_decide (c = ":"%char)) eqn:Hcolon; simpl.
  - destruct rest as [|d rest']; [done|].
    apply bool_decide_eq_true in Hc as ->.
    assert (Config.blocks_split (String "/" rest') = true) as -> by reflexivity.
    rewrite andb_false_r. by rewrite IH.
  - by rewrite IH.
Qed.

(** What stands before the scanned text only matters when the text begins
    with a colon. *)
Lemma split_posix_from_plain (s : string) (after_colon : bool) :
  Config.blocks_split s = false →
  Config.split_posix_from after_colon s = Config.split_posix_from false s.
Proof.
  destruct s as [|c rest]; simpl; [done|].
  intros [Hc _]%orb_false_iff. by rewrite Hc.
Qed.

(** A colon between a text whose colons are all guarded and a text that
    begins with neither colon nor slash is a separator. *)
Lemma split_posix_from_app (p1 p2 : string) (after_colon : bool) :
  colons_guarded p1 = true →
  (p1 = "" → after_colon = false) →
  Config.blocks_split p2 = false →
  Config.split_posix_from after_colon (p1 +:+ ":" +:+ p2)
  = p1 :: Config.split_posix_from false p2.
Proof.
  revert after_colon. induction p1 as [|c p1 IH]; intros after_colon Hg Hfirst Hp2.
  - rewrite append_nil, append_cons, append_nil. simpl.
    rewrite Hfirst, Hp2 by done. simpl. by rewrite split_posix_from_plain.
  - rewrite append_cons. simpl in Hg. apply andb_true_iff in Hg as [Hc Hg].
    cbn [Config.split_posix_from].
    destruct (bool_decide (c = ":"%char)) eqn:Hcolon.
    + destruct p1 as [|d p1']; [done|].
      apply bool_decide_eq_true in Hc as ->.
      rewrite append_cons.
      assert (Config.blocks_split (String "/" (p1' +:+ ":" +:+ p2)) = true) as ->
        by reflexivity.
      rewrite andb_false_r. rewrite <- append_cons.
      by rewrite IH.
    + simpl. by rewrite IH.
Qed.

Lemma starts_plain_blocks (u : string) :
  starts_plain u = true → Config.blocks_split u = false ∧ u ≠ "".
Proof.
  destruct u as [|c rest]; [done|]. unfold starts_plain.
  intros Hu%negb_true_iff. done.
Qed.

Lemma blocks_split_concat (u : string) (more : list string) :
  starts_plain u = true →
  Config.blocks_split (String.concat ":" (u :: more)) = false.
Proof.
  intros [Hb Hne]%starts_plain_blocks.
  destruct u as [|c rest]; [done|].
  destruct more; [done|]. by rewrite concat_cons_cons, append_cons.
Qed.

Lemma split_posix_of_join (u : string) (more : list string) :
  Forall (λ v, colons_guarded v = true) (u :: more) →
  Forall (λ v, starts_plain v = true) more →
  Config.split_posix_from false (String.concat ":" (u :: more)) = u :: more.
Proof.
  revert u. induction more as [|u' more IH]; intros u Hg Hp.
  - apply guarded_is_one_piece. by apply Forall_inv in Hg.
  - apply Forall_cons in Hg as [Hu Hg]. apply Forall_cons in Hp as [Hu' Hp].
    rewrite concat_cons_cons, split_posix_from_app; [|done|done|by apply blocks_split_concat].
    by rewrite IH.
Qed.

(** X12. Off Windows, a search path made by joining entries with colons is
    split back into exactly these entries, provided every colon inside an
    entry stands before a slash (as in [s3://bucket]) and every entry but the
    first is non-empty and begins with neither a slash nor a colon. *)
Theorem X12_posix_join_then_split (os_name u : string) (more : list string) :
  os_name ≠ "nt" →
  Forall (λ v, colons_guarded v = true) (u :: more) →
  Forall (λ v, starts_plain v = true) more →
  Config.intake_path_dirs os_name (Config.VStr (String.concat ":" (u :: more)))
  = inr (Config.VList (u :: more)).
Proof.
  intros Hnt Hg Hp. unfold Config.intake_path_dirs, Config.split_posix.
  rewrite decide_False by done. by rewrite split_posix_of_join.
Qed.

Lemma split_nt_free (s : string) :
  semicolon_free s = true → Config.split_nt s = [s].
Proof.
  induction s as [|c rest IH]; simpl; [done|].
  intros [Hc Hrest]%andb_true_iff. apply negb_true_iff in Hc.
  by rewrite Hc, IH.
Qed.

Lemma split_nt_app (p1 p2 : string) :
  semicolon_free p1 = true →
  Config.split_nt (p1 +:+ ";" +:+ p2) = p1 :: Config.split_nt p2.
Proof.
  induction p1 as [|c p1 IH]; intros Hf.
  - by rewrite append_nil, append_cons, append_nil.
  - rewrite append_cons. simpl in *. apply andb_true_iff in Hf as [Hc Hf].
    apply negb_true_iff in Hc. by rewrite Hc, IH.
Qed.

Lemma split_nt_pieces (s : string) :
  Forall (λ piece, semicolon_free piece = true) (Config.split_nt s).
Proof.
  induction s as [|c rest IH]; simpl.
  - by constructor.
  - destruct (bool_decide (c = ";"%char)) eqn:Hc.
    + by constructor.
    + destruct (Config.split_nt rest) as [|piece more]; simpl.
      * constructor; [|done]. simpl. by rewrite Hc.
      * apply Forall_cons in IH as [Hp Hm]. constructor; [|done].
        simpl. by rewrite Hc, Hp.
Qed.

(** X13. On Windows the path is cut at every semicolon: no entry holds a
    semicolon, and a path made by joining semicolon-free entries with
    semicolons is split back into exactly these entries (colons, as in
    drive letters, are left alone). *)
Theorem X13_nt_split_at_every_semicolon (s u : string) (more : list string) :
  (∃ l, Config.intake_path_dirs "nt" (Config.VStr s) = inr (Config.VList l)
        ∧ Forall (λ piece, semicolon_free piece = true) l)
  ∧ (Forall (λ v, semicolon_free v = true) (u :: more) →
     Config.intake_path_dirs "nt" (Config.VStr (String.concat ";" (u :: more)))
     = inr (Config.VList (u :: more))).
Proof.
  unfold Config.intake_path_dirs. rewrite !decide_True by done. split.
  - eexists. split; [done | apply split_nt_pieces].
  - intros Hf. do 2 f_equal.
    revert u Hf. induction more as [|u' more IH]; intros u Hf.
    + apply split_nt_free. by apply Forall_inv in Hf.
    + apply Forall_cons in Hf as [Hu Hf].
      by rewrite concat_cons_cons, split_nt_app, IH.
Qed.

(** ** [load_env] *)

Section load_env_properties.
Context (os_name : string) (make_path_posix : string → string)
        (lower : string → string) (setLevel : Config.Value → option string).

Local Abbreviation load_env := (Config.load_env os_name make_path_posix lower setLevel).
Local Abbreviation after_paths environ self :=
  (foldl (Config.load_path make_path_posix environ) self Config.path_variables).

(** The string split for the platform. *)
Local Abbreviation dirs_of s :=
  (if decide (os_name = "nt") then Config.split_nt s else Config.split_posix s).

Lemma after_paths_catalog_path (environ : gmap string string)
    (self : gmap string Config.Value) :
  after_paths environ self !! "catalog_path"
  = match environ !! "INTAKE_PATH" with
    | Some v => Some (Config.VStr (make_path_posix v))
    | None => self !! "catalog_path"
    end.
Proof.
  simpl. unfold Config.load_path. simpl.
  destruct (environ !! "INTAKE_PERSIST_PATH"), (environ !! "INTAKE_PATH"),
    (environ !! "INTAKE_CACHE_DIR");
    by repeat ((rewrite lookup_insert_ne by done) || rewrite lookup_insert_eq).
Qed.

Lemma after_paths_other (environ : gmap string string)
    (self : gmap string Config.Value) (k : string) :
  k ∉ Config.path_variables.*1 →
  after_paths environ self !! k = self !! k.
Proof.
  intros Hk. simpl. unfold Config.load_path. simpl.
  assert (k ≠ "cache_dir" ∧ k ≠ "catalog_path" ∧ k ≠ "persist_path") as (?&?&?).
  { split_and!; intros ->; apply Hk; simpl;
      [by left | by right; left | by right; right; left]. }
  destruct (environ !! "INTAKE_PERSIST_PATH"), (environ !! "INTAKE_PATH"),
    (environ !! "INTAKE_CACHE_DIR");
    by repeat (rewrite lookup_insert_ne by done).
Qed.

(** The state once [catalog_path] has been normalised to [dirs], the flags
    read and the log level written. *)
Lemma load_env_runs (environ : gmap string string) (self : gmap string Config.Value)
    (path : Config.Value) (dirs : Config.Value) :
  Config.__getitem__ (after_paths environ self) "catalog_path" = Py.Returns path →
  Config.intake_path_dirs os_name path = inr dirs →
  ∃ after,
    (load_env environ self).2 = after
    ∧ after !! "catalog_path" = Some dirs
    ∧ after !! "logging"
      = match environ !! "INTAKE_LOG_LEVEL" with
        | Some level => Some (Config.VStr level)
        | None => self !! "logging"
        end
    ∧ ∃ level,
        Config.__getitem__ after "logging" = Py.Returns level
        ∧ (load_env environ self).1
          = match setLevel level with
            | Some msg => inl (Config.LoggerError msg)
            | None => inr ()
            end.
Proof.
  intros Hpath Hdirs. unfold Config.load_env. rewrite Hpath, Hdirs.
  set (s1 := after_paths environ self).
  set (s2 := foldl (Config.load_flag lower environ) (<["catalog_path" := dirs]> s1)
                   Config.flag_variables).
  assert (s2 !! "catalog_path" = Some dirs) as Hcat.
  { subst s2. simpl. unfold Config.load_flag. simpl.
    destruct (environ !! "INTAKE_DISABLE_CACHING"), (environ !! "INTAKE_CACHE_PROGRESS");
      by repeat ((rewrite lookup_insert_ne by done) || rewrite lookup_insert_eq). }
  assert (s2 !! "logging" = self !! "logging") as Hlog.
  { subst s2. simpl. unfold Config.load_flag. simpl.
    destruct (environ !! "INTAKE_DISABLE_CACHING"), (environ !! "INTAKE_CACHE_PROGRESS");
      repeat (rewrite lookup_insert_ne by done);
      subst s1; by rewrite after_paths_other by by_cases_on_list. }
  set (s3 := match environ !! "INTAKE_LOG_LEVEL" with
             | Some level => <["logging" := Config.VStr level]> s2
             | None => s2
             end).
  assert (s3 !! "catalog_path" = Some dirs) as Hcat3.
  { subst s3. destruct (environ !! "INTAKE_LOG_LEVEL"); [|done].
    by rewrite lookup_insert_ne. }
  assert (s3 !! "logging"
          = match environ !! "INTAKE_LOG_LEVEL" with
            | Some level => Some (Config.VStr level)
            | None => self !! "logging"
            end) as Hlog3.
  { subst s3. destruct (environ !! "INTAKE_LOG_LEVEL"); [|done].
    by rewrite lookup_insert_eq. }
  assert (∃ level, Config.__getitem__ s3 "logging" = Py.Returns level) as [level Hlevel].
  { destruct (s3 !! "logging") as [v|] eqn:Hs3.
    - exists v. by apply Config_lookup_stored.
    - eexists. by apply Config_lookup_default. }
  rewrite Hlevel. exists s3. split.
  - by destruct (setLevel level).
  - split_and!; [done|done|]. exists level. split; [done|].
    by destruct (setLevel level).
Qed.

(** X14. [load_env] never fails on a lookup, and unless [pattern.split]
    raises [TypeError] the entry [catalog_path] is afterwards stored as a
    list or as a tuple (a tuple only if it was stored as that tuple before
    and [INTAKE_PATH] is not set), also when the logger then refuses the
    level. *)
Theorem X14_load_env_leaves_a_list_or_tuple (environ : gmap string string)
    (self : gmap string Config.Value) :
  (∀ e, (load_env environ self).1 ≠ inl (Config.Lookup e))
  ∧ ((load_env environ self).1 = inl Config.SplitTypeError
     ∨ (∃ l, (load_env environ self).2 !! "catalog_path" = Some (Config.VList l))
     ∨ (∃ l, (load_env environ self).2 !! "catalog_path" = Some (Config.VTuple l)
             ∧ environ !! "INTAKE_PATH" = None
             ∧ self !! "catalog_path" = Some (Config.VTuple l))).
Proof.
  assert (∃ path, Config.__getitem__ (after_paths environ self) "catalog_path"
                  = Py.Returns path) as [path Hpath].
  { destruct (after_paths environ self !! "catalog_path") as [v|] eqn:Hs.
    - exists v. by apply Config_lookup_stored.
    - eexists. by apply Config_lookup_default. }
  destruct (Config.intake_path_dirs os_name path) as [e|dirs] eqn:Hdirs.
  - assert ((load_env environ self).1 = inl Config.SplitTypeError) as Hfail.
    { unfold Config.load_env. rewrite Hpath, Hdirs. simpl.
      destruct path; simpl in Hdirs; congruence. }
    split; [|by left]. intros e'. by rewrite Hfail.
  - destruct (load_env_runs environ self path dirs Hpath Hdirs)
      as (after & Hafter & Hcat & _ & level & _ & Hout).
    split.
    + intros e. rewrite Hout. by destruct (setLevel level).
    + right. rewrite Hafter, Hcat.
      destruct path as [| |s|l|l]; simpl in Hdirs; try done; injection Hdirs as <-;
        [left; eauto | left; eauto |].
      right. exists l. split; [done|].
      destruct (after_paths environ self !! "catalog_path") as [v|] eqn:Hs.
      * rewrite (Config_lookup_stored _ _ _ Hs) in Hpath. injection Hpath as ->.
        rewrite after_paths_catalog_path in Hs.
        by destruct (environ !! "INTAKE_PATH").
      * rewrite (Config_lookup_default _ "catalog_path" (Config.VList [])) in Hpath
          by done.
        done.
Qed.

(** X15. The environment wins over what the configuration held: with
    [INTAKE_PATH] set, neither the lookup of [catalog_path] nor the split can
    fail, so [load_env] comes to the call of [logger.setLevel] with the
    configured level, and ends as that call ends; [catalog_path] becomes the
    split of the variable (made posix), whatever was stored under it; with
    [INTAKE_LOG_LEVEL] set as well, [logging] becomes that level. *)
Theorem X15_environment_takes_precedence (environ : gmap string string)
    (self : gmap string Config.Value) (v : string) :
  environ !! "INTAKE_PATH" = Some v →
  (∃ level,
     Config.__getitem__ (load_env environ self).2 "logging" = Py.Returns level
     ∧ (load_env environ self).1
       = match setLevel level with
         | Some msg => inl (Config.LoggerError msg)
         | None => inr ()
         end)
  ∧ (load_env environ self).2 !! "catalog_path"
    = Some (Config.VList (dirs_of (make_path_posix v)))
  ∧ (∀ level, environ !! "INTAKE_LOG_LEVEL" = Some level →
       (load_env environ self).2 !! "logging" = Some (Config.VStr level)
       ∧ (load_env environ self).1
         = match setLevel (Config.VStr level) with
           | Some msg => inl (Config.LoggerError msg)
           | None => inr ()
           end).
Proof.
  intros Henv.
  assert (after_paths environ self !! "catalog_path"
          = Some (Config.VStr (make_path_posix v))) as Hs
    by (by rewrite after_paths_catalog_path, Henv).
  destruct (load_env_runs environ self (Config.VStr (make_path_posix v))
              (Config.VList (dirs_of (make_path_posix v))))
    as (after & Hafter & Hcat & Hlog & level & Hlevel & Hout);
    [by apply Config_lookup_stored | done |].
  split_and!.
  - exists level. by rewrite Hafter.
  - by rewrite Hafter.
  - intros lv Hlv. rewrite Hlv in Hlog. split; [by rewrite Hafter|].
    rewrite Hout. rewrite (Config_lookup_stored _ _ _ Hlog) in Hlevel.
    by injection Hlevel as <-.
Qed.

(** X16. Without [INTAKE_PATH], a stored [catalog_path] that is neither a
    list, nor a tuple, nor a string makes [load_env] raise the [TypeError] of
    [pattern.split] half way: the path variables have been applied, the log
    level and the flags have not, even when their variables are set. *)
Theorem X16_load_env_fails_half_way (environ : gmap string string)
    (self : gmap string Config.Value) (path : Config.Value) (k : string) :
  environ !! "INTAKE_PATH" = None →
  self !! "catalog_path" = Some path →
  (∀ l, path ≠ Config.VList l) → (∀ l, path ≠ Config.VTuple l) →
  (∀ s, path ≠ Config.VStr s) →
  (load_env environ self).1 = inl Config.SplitTypeError
  ∧ (∀ p, environ !! "INTAKE_CACHE_DIR" = Some p →
       (load_env environ self).2 !! "cache_dir" = Some (Config.VStr (make_path_posix p)))
  ∧ (k ∉ Config.path_variables.*1 → (load_env environ self).2 !! k = self !! k).
Proof.
  intros Henv Hself Hlist Htuple Hstr.
  assert (after_paths environ self !! "catalog_path" = Some path) as Hs
    by (by rewrite after_paths_catalog_path, Henv).
  assert (load_env environ self = (inl Config.SplitTypeError, after_paths environ self))
    as ->.
  { unfold Config.load_env. rewrite (Config_lookup_stored _ _ _ Hs).
    destruct path as [| |s|l|l]; simpl; try done.
    - by destruct (Hstr s).
    - by destruct (Hlist l).
    - by destruct (Htuple l). }
  split_and!; [done| |].
  - intros p Hp. simpl. unfold Config.load_path. simpl. rewrite Hp, Henv.
    destruct (environ !! "INTAKE_PERSIST_PATH");
      by repeat ((rewrite lookup_insert_ne by done) || rewrite lookup_insert_eq).
  - intros Hk. by apply after_paths_other.
Qed.

(** X17. With none of the six variables set, a configuration whose
    [catalog_path] is already a list is left exactly as it is, and the only
    thing that happens is the call of [logger.setLevel] with the configured
    level; without a stored [catalog_path], the default empty list gets
    stored. *)
Theorem X17_load_env_without_variables (self : gmap string Config.Value) :
  (∀ l, self !! "catalog_path" = Some (Config.VList l) →
        (load_env ∅ self).2 = self)
  ∧ (self !! "catalog_path" = None →
     (load_env ∅ self).2 = <["catalog_path" := Config.VList []]> self)
  ∧ (∀ l level, self !! "catalog_path" = Some (Config.VList l) →
       Config.__getitem__ self "logging" = Py.Returns level →
       (load_env ∅ self).1
       = match setLevel level with
         | Some msg => inl (Config.LoggerError msg)
         | None => inr ()
         end).
Proof.
  assert (∀ dirs, Config.__getitem__ self "catalog_path" = Py.Returns dirs →
                  Config.intake_path_dirs os_name dirs = inr dirs →
                  load_env ∅ self
                  = (match Config.__getitem__ (<["catalog_path" := dirs]> self) "logging" with
                     | Py.Returns level =>
                         match setLevel level with
                         | Some msg => inl (Config.LoggerError msg)
                         | None => inr ()
                         end
                     | Py.Raises e => inl (Config.Lookup e)
                     end, <["catalog_path" := dirs]> self)) as Hrun.
  { intros dirs Hget Hdirs. unfold Config.load_env. simpl.
    unfold Config.load_path, Config.load_flag. simpl. rewrite !lookup_empty.
    rewrite Hget, Hdirs.
    destruct (Config.__getitem__ (<["catalog_path" := dirs]> self) "logging")
      as [level|e]; [|done].
    by destruct (setLevel level). }
  split_and!.
  - intros l Hl. rewrite (Hrun (Config.VList l)); [|by apply Config_lookup_stored|done].
    simpl. by apply insert_id.
  - intros Hnone. rewrite (Hrun (Config.VList [])); [done| |done].
    by apply Config_lookup_default.
  - intros l level Hl Hlevel.
    rewrite (Hrun (Config.VList l)); [|by apply Config_lookup_stored|done].
    simpl. rewrite insert_id by done. by rewrite Hlevel.
Qed.

End load_env_properties.

(** ** conftest.py *)

Lemma pick_port_in_range (PORT : Z) :
  (Conftest.MIN_PORT ≤ PORT ≤ Conftest.MAX_PORT)%Z →
  Conftest.pick_port PORT
  = (PORT, (Conftest.MIN_PORT + (PORT - Conftest.MIN_PORT + 1) `mod` 10)%Z).
Proof.
  unfold Conftest.pick_port, Conftest.MIN_PORT, Conftest.MAX_PORT. intros Hr.
  destruct (decide (PORT = 7489%Z)) as [->|Hne]; [done|].
  f_equal. rewrite Z.mod_small by lia. lia.
Qed.

(** X18. Successive calls of [pick_port] walk through the ten ports 7480 to
    7489 in order and start again: from a [PORT] in that range, the call
    number [k] (counting from 0) returns [7480 + (PORT - 7480 + k) mod 10],
    so every port returned lies in the range, and ten calls in a row give
    ten different ports and leave [PORT] where it was. *)
Theorem X18_pick_port_cycles (PORT : Z) (n : nat) :
  (Conftest.MIN_PORT ≤ PORT ≤ Conftest.MAX_PORT)%Z →
  Conftest.pick_ports n PORT
  = ((λ k : nat, (Conftest.MIN_PORT + (PORT - Conftest.MIN_PORT + Z.of_nat k) `mod` 10)%Z)
       <$> seq 0 n,
     (Conftest.MIN_PORT + (PORT - Conftest.MIN_PORT + Z.of_nat n) `mod` 10)%Z)
  ∧ Forall (λ port, (Conftest.MIN_PORT ≤ port ≤ Conftest.MAX_PORT)%Z)
           (Conftest.pick_ports n PORT).1
  ∧ (n = 10 → NoDup (Conftest.pick_ports n PORT).1
              ∧ (Conftest.pick_ports n PORT).2 = PORT).
Proof.
  intros Hr.
  assert (∀ n PORT, (Conftest.MIN_PORT ≤ PORT ≤ Conftest.MAX_PORT)%Z →
            Conftest.pick_ports n PORT
            = ((λ k : nat,
                  (Conftest.MIN_PORT + (PORT - Conftest.MIN_PORT + Z.of_nat k) `mod` 10)%Z)
                 <$> seq 0 n,
               (Conftest.MIN_PORT + (PORT - Conftest.MIN_PORT + Z.of_nat n) `mod` 10)%Z))
    as Hclosed.
  { clear. intros n. induction n as [|n IH]; intros PORT Hr.
    - simpl. f_equal. unfold Conftest.MIN_PORT, Conftest.MAX_PORT in *.
      rewrite Z.add_0_r, Z.mod_small by lia. lia.
    - cbn [Conftest.pick_ports]. rewrite pick_port_in_range by done.
      rewrite IH.
      2:{ unfold Conftest.MIN_PORT, Conftest.MAX_PORT in *.
          pose proof (Z.mod_pos_bound (PORT - 7480 + 1) 10). lia. }
      assert (∀ k : nat,
                (Conftest.MIN_PORT
                 + (Conftest.MIN_PORT + (PORT - Conftest.MIN_PORT + 1) `mod` 10
                    - Conftest.MIN_PORT + Z.of_nat k) `mod` 10
                 = Conftest.MIN_PORT
                   + (PORT - Conftest.MIN_PORT + Z.of_nat (S k)) `mod` 10)%Z) as Hshift.
      { intros k. f_equal.
        replace (Conftest.MIN_PORT + (PORT - Conftest.MIN_PORT + 1) `mod` 10
                 - Conftest.MIN_PORT + Z.of_nat k)%Z
          with ((PORT - Conftest.MIN_PORT + 1) `mod` 10 + Z.of_nat k)%Z by lia.
        rewrite Zplus_mod_idemp_l. f_equal. lia. }
      f_equal; [|apply Hshift].
      cbn [seq fmap list_fmap]. f_equal.
      + unfold Conftest.MIN_PORT, Conftest.MAX_PORT in *.
        rewrite Z.add_0_r, Z.mod_small by lia. lia.
      + rewrite <- fmap_S_seq, <- list_fmap_compose.
        apply list_fmap_ext. intros i k _. apply Hshift. }
  rewrite Hclosed by done. cbn [fst snd]. split_and!.
  - done.
  - apply Forall_fmap, Forall_forall. intros k _. simpl.
    unfold Conftest.MIN_PORT, Conftest.MAX_PORT in *.
    pose proof (Z.mod_pos_bound (PORT - 7480 + Z.of_nat k) 10). lia.
  - intros ->. unfold Conftest.MIN_PORT, Conftest.MAX_PORT in *. split.
    + assert (PORT = 7480 ∨ PORT = 7481 ∨ PORT = 7482 ∨ PORT = 7483 ∨ PORT = 7484
              ∨ PORT = 7485 ∨ PORT = 7486 ∨ PORT = 7487 ∨ PORT = 7488 ∨ PORT = 7489)%Z
        as Hcases by lia.
      destruct Hcases as [->|[->|[->|[->|[->|[->|[->|[->|[->| ->]]]]]]]]];
        by apply (bool_decide_unpack _); vm_compute.
    + replace (PORT - 7480 + Z.of_nat 10)%Z with (PORT - 7480 + 1 * 10)%Z by lia.
      rewrite Z_mod_plus_full, Z.mod_small by lia. lia.
Qed.

(** X19. With [swallow_exception] set, [ping_server] never raises: it
    answers [True] exactly when the request went through with status 200 or
    403, and [False] also when the request itself failed. Without it, the
    exception of the request reaches the caller unchanged. *)
Theorem X19_ping_server_swallows {E : Type} (requests_get : string → E + Z) (url : string) :
  ∃ b : bool,
    Conftest.ping_server requests_get url true = inr b
    ∧ (b = true ↔ requests_get url = inr 200%Z ∨ requests_get url = inr 403%Z)
    ∧ Conftest.ping_server requests_get url false
      = match requests_get url with
        | inl e => inl e
        | inr _ => inr b
        end.
Proof.
  unfold Conftest.ping_server. destruct (requests_get url) as [e|code].
  - exists false. split_and!; [done | | done].
    split; [done | intros [?|?]; done].
  - eexists. split_and!; [done | | done].
    rewrite orb_true_iff, !bool_decide_eq_true. split.
    + intros [-> | ->]; eauto.
    + intros [[= ->] | [= ->]]; eauto.
Qed.

(** ** StackBands *)

Lemma first_info_Some (key : StackBands.Band → option string) (band : string)
    (band_info : list StackBands.Band) (info : StackBands.Band) :
  StackBands.first_info key band band_info = Some info →
  info ∈ band_info ∧ key info = Some band.
Proof.
  unfold StackBands.first_info. intros Hh.
  assert (info ∈ filter (λ b, key b = Some band) band_info) as Hin.
  { destruct (filter _ _) as [|x l]; [done|]. injection Hh as ->. left. }
  apply list_elem_of_filter in Hin as [? ?]. done.
Qed.

Lemma first_info_found (key : StackBands.Band → option string) (band : string)
    (band_info : list StackBands.Band) (info : StackBands.Band) :
  info ∈ band_info → key info = Some band →
  ∃ first, StackBands.first_info key band band_info = Some first.
Proof.
  intros Hin Hkey. unfold StackBands.first_info.
  assert (info ∈ filter (λ b, key b = Some band) band_info) as Hf
    by (by apply list_elem_of_filter).
  destruct (filter _ _) as [|x l]; [by apply not_elem_of_nil in Hf|]. eauto.
Qed.

(** A band that resolves gives the asset stored under the id (or name) of an
    entry of [band_info] that the band matches by id, name or common name. *)
Lemma resolve_sound (assets : gmap string StackBands.Asset)
    (band_info : list StackBands.Band) (band key : string) (asset : StackBands.Asset) :
  StackBands.resolve assets band_info band = inr (key, asset) →
  assets !! key = Some asset
  ∧ ∃ info, info ∈ band_info ∧ StackBands.id_or_name info = Some key
            ∧ (key = band ∨ ((band ∉ dom assets)
                             ∧ StackBands.band_common_name info = Some band)).
Proof.
  unfold StackBands.resolve.
  destruct (bool_decide (band ∈ dom assets)) eqn:Hdom.
  - destruct (StackBands.first_info StackBands.id_or_name band band_info) as [info|] eqn:Hi;
      [|done].
    destruct (assets !! band) as [a|] eqn:Ha; [|done].
    intros [= <- <-]. split; [done|].
    apply first_info_Some in Hi as [Hin Hkey]. exists info. eauto.
  - apply bool_decide_eq_false in Hdom.
    destruct (StackBands.first_info StackBands.band_common_name band band_info)
      as [info|] eqn:Hi.
    + destruct (StackBands.id_or_name info) as [b|] eqn:Hb; [|done].
      destruct (assets !! b) as [a|] eqn:Ha; [|done].
      intros [= <- <-]. split; [done|].
      apply first_info_Some in Hi as [Hin Hkey]. exists info. eauto.
    + done.
Qed.

Lemma resolve_all_sound (assets : gmap string StackBands.Asset)
    (band_info : list StackBands.Band) (bands : list string)
    (found : list (string * StackBands.Asset)) :
  StackBands.resolve_all assets band_info bands = inr found →
  Forall2 (λ band hit, StackBands.resolve assets band_info band = inr hit) bands found.
Proof.
  revert found. induction bands as [|band bands IH]; intros found; simpl.
  - intros [= <-]. constructor.
  - destruct (StackBands.resolve assets band_info band) as [e|hit] eqn:Hr; [done|].
    destruct (StackBands.resolve_all assets band_info bands) as [e|more]; [done|].
    intros [= <-]. constructor; [done | by apply IH].
Qed.

Lemma remove_dups_singleton {A} `{EqDecision A} (l : list A) (x : A) :
  length (remove_dups l) = 1 → x ∈ l → remove_dups l = [x].
Proof.
  intros Hlen Hx. apply elem_of_remove_dups in Hx.
  destruct (remove_dups l) as [|y [|z r]]; simplify_eq/=.
  by apply list_elem_of_singleton in Hx as ->.
Qed.

(** X20. When [_read] succeeds, every requested band was resolved to an
    asset of the item, stored under the id or name of an [eo:bands] entry
    that the band names by id, name or common name; there was at least one
    band; all the assets have the media type of the last one; and the reader
    was built from the last asset with one url per band, in the order of the
    bands. *)
Theorem X20_stack_bands_success {R : Type}
    (stack : StackBands.Asset → string → list string → StackBands.Error + R)
    (assets : gmap string StackBands.Asset) (band_info : list StackBands.Band)
    (bands : list string) (concat_dim : string) (reader : R) :
  StackBands._read stack assets band_info bands concat_dim = inr reader →
  ∃ found last_asset,
    bands ≠ []
    ∧ Forall2 (λ band hit,
         assets !! hit.1 = Some hit.2
         ∧ ∃ info, info ∈ band_info ∧ StackBands.id_or_name info = Some hit.1
                   ∧ (hit.1 = band ∨ ((band ∉ dom assets)
                                      ∧ StackBands.band_common_name info = Some band)))
        bands found
    ∧ last found.*2 = Some last_asset
    ∧ Forall (λ a, StackBands.media_type a = StackBands.media_type last_asset) found.*2
    ∧ stack last_asset concat_dim (StackBands.href <$> found.*2) = inr reader.
Proof.
  unfold StackBands._read.
  destruct (StackBands.resolve_all assets band_info bands) as [e|found] eqn:Hall; [done|].
  destruct (decide _) as [Hlen|]; [|done].
  destruct (last found.*2) as [last_asset|] eqn:Hlast; [|done].
  intros Hstack. exists found, last_asset.
  apply resolve_all_sound in Hall.
  split_and!; [| |done| |done].
  - intros ->. apply Forall2_nil_inv_l in Hall as ->. done.
  - eapply Forall2_impl; [exact Hall|].
    intros band [key asset] Hr. by apply resolve_sound.
  - assert (last_asset ∈ found.*2) as Hin.
    { apply last_Some in Hlast as [l' ->]. apply elem_of_app. right. left. }
    assert (remove_dups (StackBands.media_type <$> found.*2)
            = [StackBands.media_type last_asset]) as Hone.
    { apply remove_dups_singleton; [done|]. by apply list_elem_of_fmap_2. }
    apply Forall_forall. intros a Ha.
    assert (StackBands.media_type a ∈ remove_dups (StackBands.media_type <$> found.*2)) as Hm.
    { apply elem_of_remove_dups. by apply list_elem_of_fmap_2. }
    rewrite Hone in Hm. by apply list_elem_of_singleton in Hm.
Qed.

Lemma resolve_by_common_name (assets : gmap string StackBands.Asset)
    (band_info : list StackBands.Band) (common key : string) (info : StackBands.Band) :
  StackBands.first_info StackBands.band_common_name common band_info = Some info →
  StackBands.id_or_name info = Some key →
  common ∉ dom assets → key ∈ dom assets →
  StackBands.resolve assets band_info common = StackBands.resolve assets band_info key
  ∧ ∃ asset, StackBands.resolve assets band_info key = inr (key, asset).
Proof.
  intros Hinfo Hkey Hcommon Hdom.
  apply elem_of_dom in Hdom as [asset Hasset].
  destruct (first_info_Some _ _ _ _ Hinfo) as [Hin _].
  destruct (first_info_found StackBands.id_or_name key band_info info Hin Hkey)
    as [first Hfirst].
  assert (StackBands.resolve assets band_info key = inr (key, asset)) as Hk.
  { unfold StackBands.resolve.
    rewrite bool_decide_eq_true_2 by (apply elem_of_dom; eauto).
    by rewrite Hfirst, Hasset. }
  split; [|eauto]. rewrite Hk. unfold StackBands.resolve.
  rewrite bool_decide_eq_false_2 by done.
  by rewrite Hinfo, Hkey, Hasset.
Qed.

Lemma resolve_all_ext (assets : gmap string StackBands.Asset)
    (band_info : list StackBands.Band) (bands bands' : list string) :
  Forall2 (λ b b', StackBands.resolve assets band_info b
                   = StackBands.resolve assets band_info b') bands bands' →
  StackBands.resolve_all assets band_info bands
  = StackBands.resolve_all assets band_info bands'.
Proof.
  induction 1 as [|b b' bands bands' Hb _ IH]; simpl; [done|].
  by rewrite Hb, IH.
Qed.

(** X21. A band may be asked for by its common name: when the common name
    is no key of the assets and the first [eo:bands] entry of that common
    name has an id (or, without id, a name) that is a key of the assets,
    [_read] does with the common name exactly what it does with that id. *)
Theorem X21_common_name_stands_for_id {R : Type}
    (stack : StackBands.Asset → string → list string → StackBands.Error + R)
    (assets : gmap string StackBands.Asset) (band_info : list StackBands.Band)
    (before after : list string) (common key concat_dim : string)
    (info : StackBands.Band) :
  StackBands.first_info StackBands.band_common_name common band_info = Some info →
  StackBands.id_or_name info = Some key →
  common ∉ dom assets → key ∈ dom assets →
  StackBands._read stack assets band_info (before ++ common :: after) concat_dim
  = StackBands._read stack assets band_info (before ++ key :: after) concat_dim.
Proof.
  intros Hinfo Hkey Hcommon Hdom.
  destruct (resolve_by_common_name assets band_info common key info) as [Heq _]; try done.
  unfold StackBands._read.
  rewrite (resolve_all_ext assets band_info (before ++ common :: after)
             (before ++ key :: after)); [done|].
  apply Forall2_app; [by apply Forall_Forall2_diag, Forall_true|].
  constructor; [done|]. by apply Forall_Forall2_diag, Forall_true.
Qed.

Lemma resolve_error (assets : gmap string StackBands.Asset)
    (band_info : list StackBands.Band) (band : string) (e : StackBands.Error) :
  StackBands.resolve assets band_info band = inl e →
  ∃ b, e = StackBands.not_found b band_info.
Proof.
  unfold StackBands.resolve.
  destruct (bool_decide (band ∈ dom assets)).
  - destruct (StackBands.first_info _ _ _); [|intros [= <-]; eauto].
    destruct (assets !! band); [done | intros [= <-]; eauto].
  - destruct (StackBands.first_info _ _ _) as [info|]; [|intros [= <-]; eauto].
    destruct (StackBands.id_or_name info) as [b|]; [|intros [= <-]; eauto].
    destruct (assets !! b); [done | intros [= <-]; eauto].
Qed.

Lemma resolve_all_error (assets : gmap string StackBands.Asset)
    (band_info : list StackBands.Band) (bands : list string) (e : StackBands.Error) :
  StackBands.resolve_all assets band_info bands = inl e →
  ∃ band, band ∈ bands ∧ StackBands.resolve assets band_info band = inl e.
Proof.
  induction bands as [|band bands IH]; simpl; [done|].
  destruct (StackBands.resolve assets band_info band) as [e'|hit] eqn:Hr.
  - intros [= <-]. exists band. split; [left | done].
  - destruct (StackBands.resolve_all assets band_info bands) as [e'|more]; [|done].
    intros [= <-]. destruct IH as [b [Hb Hrb]]; [done|].
    exists b. split; [by right | done].
Qed.

(** X22. The error for a band that cannot be resolved depends on the
    [eo:bands] entries: when some entry lacks a common name (or both id and
    name) while some name is present, building the message sorts [None]
    together with strings and [_read] ends in [TypeError]; otherwise it is
    the [ValueError] that names the band. No reader is built either way. *)
Theorem X22_unresolved_band_error {R : Type}
    (stack : StackBands.Asset → string → list string → StackBands.Error + R)
    (assets : gmap string StackBands.Asset)
    (band_info : list StackBands.Band) (bands : list string) (concat_dim : string)
    (found_error : StackBands.Error) :
  StackBands.resolve_all assets band_info bands = inl found_error →
  StackBands._read stack assets band_info bands concat_dim = inl found_error
  ∧ (found_error = StackBands.Unsortable
     ↔ None ∈ StackBands.valid_band_names band_info
       ∧ ∃ name, Some name ∈ StackBands.valid_band_names band_info)
  ∧ (found_error ≠ StackBands.Unsortable →
     ∃ band valid, found_error = StackBands.BandNotFound band valid).
Proof.
  intros Hall. split; [unfold StackBands._read; by rewrite Hall|].
  apply resolve_all_error in Hall as [band [_ Hr]].
  apply resolve_error in Hr as [b ->]. unfold StackBands.not_found.
  set (names := StackBands.valid_band_names band_info).
  assert (omap id names = [] ↔ ¬ ∃ name, Some name ∈ names) as Hstrings.
  { split.
    - intros Hnil [name Hname].
      assert (name ∈ omap id names) as Hin by (apply list_elem_of_omap; eauto).
      rewrite Hnil in Hin. by apply not_elem_of_nil in Hin.
    - intros Hno. destruct (omap id names) as [|x l] eqn:Ho; [done|].
      exfalso. apply Hno. exists x.
      assert (x ∈ omap id names) as Hin by (rewrite Ho; left).
      apply list_elem_of_omap in Hin as [[y|] [Hy Hid]]; simplify_eq/=. done. }
  destruct (bool_decide (None ∈ names)) eqn:Hnone.
  - apply bool_decide_eq_true in Hnone.
    destruct (bool_decide (omap id names = [])) eqn:Hs.
    + apply bool_decide_eq_true in Hs. split; [|eauto].
      split; [done|]. intros [_ Hname]. by apply Hstrings in Hs.
    + apply bool_decide_eq_false in Hs. split; [|done].
      split; [|done]. intros _. split; [done|].
      destruct (omap id names) as [|x l] eqn:Ho; [done|].
      exists x.
      assert (x ∈ omap id names) as Hin by (rewrite Ho; left).
      apply list_elem_of_omap in Hin as [[y|] [Hy Hid]]; simplify_eq/=. done.
  - apply bool_decide_eq_false in Hnone. split; [|eauto].
    split; [done|]. by intros [? _].
Qed.

Lemma remove_dups_distinct {A} `{EqDecision A} (l : list A) (x y : A) :
  x ∈ l → y ∈ l → x ≠ y → length (remove_dups l) ≠ 1.
Proof.
  intros Hx Hy Hne Hlen.
  pose proof (remove_dups_singleton l x Hlen Hx) as H1.
  pose proof (remove_dups_singleton l y Hlen Hy) as H2.
  congruence.
Qed.

(** X23. Stacking refuses an empty list of bands and bands of different
    media types: both end in the [ValueError] about types, and no reader is
    built. *)
Theorem X23_stack_bands_refuses_empty_and_mixed {R : Type}
    (stack : StackBands.Asset → string → list string → StackBands.Error + R)
    (assets : gmap string StackBands.Asset) (band_info : list StackBands.Band)
    (bands : list string) (concat_dim : string)
    (found : list (string * StackBands.Asset)) (a1 a2 : StackBands.Asset) :
  StackBands._read stack assets band_info [] concat_dim = inl StackBands.MixedTypes
  ∧ (StackBands.resolve_all assets band_info bands = inr found →
     a1 ∈ found.*2 → a2 ∈ found.*2 →
     StackBands.media_type a1 ≠ StackBands.media_type a2 →
     StackBands._read stack assets band_info bands concat_dim = inl StackBands.MixedTypes).
Proof.
  split; [done|].
  intros Hall H1 H2 Hne. unfold StackBands._read. rewrite Hall.
  rewrite decide_False; [done|].
  apply (remove_dups_distinct _ (StackBands.media_type a1) (StackBands.media_type a2));
    [by apply list_elem_of_fmap_2 | by apply list_elem_of_fmap_2 | done].
Qed.

(** ** The further properties at concrete inputs *)

Lemma X1_witness :
  "dask:DataFrame" ∈ Functioner._ipython_key_completions_ (PipelineMixin.transform Demo.R)
  ∧ ∃ func,
      ("dask:DataFrame", func) ∈ funcdict (PipelineMixin.transform Demo.R)
      ∧ Functioner.__getitem__ (PipelineMixin.transform Demo.R) "dask:DataFrame"
        = extended (reader (PipelineMixin.transform Demo.R)) (OpCallable func, [], ∅)
                   "dask:DataFrame"
      ∧ output_instance (Functioner.__getitem__ (PipelineMixin.transform Demo.R)
                           "dask:DataFrame") = "dask:DataFrame".
Proof.
  assert ("dask:DataFrame"
          ∈ Functioner._ipython_key_completions_ (PipelineMixin.transform Demo.R)) as Hin
    by (right; left).
  split; [exact Hin|].
  apply (X1_completion_key_selects_registered_callable _ _ Hin).
Defined.


Lemma X4_witness :
  Py.contains "Catalog" (output_instance Demo.R) = false
  ∧ getitems Demo.R ["a"; "b"; "c"] []
    = (Py.Returns (ObjPipeline
         (Pipeline (base_steps Demo.R
                    ++ ((λ key, (GetItem, [PStr key], ∅)) <$> ["a"; "b"; "c"]))
                   (base_out_instances Demo.R
                    ++ replicate (length ["a"; "b"; "c"]) (output_instance Demo.R)))), []).
Proof.
  split; [reflexivity|].
  apply (X4_item_access_chain_is_deferred Demo.R "a" ["b"; "c"] []). reflexivity.
Defined.

Lemma X5_witness :
  Py.contains "Catalog" (output_instance Demo.DC) = true
  ∧ ("np" ∈ dom (get_namespaces Demo.DC))
  ∧ ¬ names_transformation (convert_classes (output_instance Demo.DC)) "np"
  ∧ (∃ names, PipelineMixin.__dir__ Demo.DC [] = (Py.Returns names, []) ∧ "np" ∈ names)
  ∧ PipelineMixin.__getattr__ Demo.DC "np" []
    = (read_then_index Demo.DC "np", [] ++ [ReadCall Demo.DC]).
Proof.
  assert ("np" ∈ dom (get_namespaces Demo.DC)) as Hns
    by (apply elem_of_dom; eexists; reflexivity).
  assert (¬ names_transformation (convert_classes (output_instance Demo.DC)) "np") as Hn.
  { intros [o [c [Hin _]]]. by apply not_elem_of_nil in Hin. }
  destruct (X5_catalog_regime_shadows_namespaces Demo.DC "np" []) as [_ Hshadow];
    [reflexivity|].
  destruct (Hshadow Hns Hn) as [Hdir Hread].
  split_and!; [reflexivity | exact Hns | exact Hn | exact Hdir | exact Hread].
Defined.

Lemma X8_witness :
  Demo.quiet_body (Config.set Demo.shallow_merge Demo.conf None Demo.debug).1
  = (inr (Some (Config.VStr "DEBUG")),
     <["scratch" := Config.VNone]>
       (Config.set Demo.shallow_merge Demo.conf None Demo.debug).1)
  ∧ Config.with_set Demo.shallow_merge Demo.conf None Demo.debug Demo.quiet_body
    = (inr (Some (Config.VStr "DEBUG")), Demo.conf).
Proof.
  assert (Demo.quiet_body (Config.set Demo.shallow_merge Demo.conf None Demo.debug).1
          = (inr (Some (Config.VStr "DEBUG")),
             <["scratch" := Config.VNone]>
               (Config.set Demo.shallow_merge Demo.conf None Demo.debug).1)) as Hbody
    by reflexivity.
  split; [exact Hbody|].
  apply (X8_with_set_restores_on_normal_exit _ _ _ _ _ _ _ Hbody).
Defined.

Lemma X9_witness :
  Demo.failing_body (Config.set Demo.shallow_merge Demo.conf None Demo.debug).1
  = (inl "boom",
     <["scratch" := Config.VNone]>
       (Config.set Demo.shallow_merge Demo.conf None Demo.debug).1)
  ∧ Config.with_set Demo.shallow_merge Demo.conf None Demo.debug Demo.failing_body
    = (inl "boom",
       <["scratch" := Config.VNone]>
         (Config.set Demo.shallow_merge Demo.conf None Demo.debug).1).
Proof.
  assert (Demo.failing_body (Config.set Demo.shallow_merge Demo.conf None Demo.debug).1
          = (inl "boom",
             <["scratch" := Config.VNone]>
               (Config.set Demo.shallow_merge Demo.conf None Demo.debug).1)) as Hbody
    by reflexivity.
  split; [exact Hbody|].
  apply (X9_with_set_keeps_changes_on_exception _ _ _ _ _ _ _ Hbody).
Defined.

Lemma X11_witness :
  "posix" ≠ "nt"
  ∧ Config.intake_path_dirs "posix" (Config.VStr "/home/a:/home/b:rel")
    = inr (Config.VList ["/home/a:/home/b"; "rel"])
  ∧ Forall (λ piece, ∀ rest, piece ≠ String "/" rest ∧ piece ≠ String ":" rest)
           (tail ["/home/a:/home/b"; "rel"]).
Proof.
  assert ("posix" ≠ "nt") as Hnt by discriminate.
  assert (Config.intake_path_dirs "posix" (Config.VStr "/home/a:/home/b:rel")
          = inr (Config.VList ["/home/a:/home/b"; "rel"])) as Hdirs by reflexivity.
  split_and!; [exact Hnt | exact Hdirs |].
  apply (X11_posix_entries_never_start_with_slash "posix" _ _ Hnt Hdirs).
Defined.

Lemma X12_witness :
  "posix" ≠ "nt"
  ∧ Forall (λ v, colons_guarded v = true) ["s3://bucket/cats"; "gs://other"; "local/dir"]
  ∧ Forall (λ v, starts_plain v = true) ["gs://other"; "local/dir"]
  ∧ Config.intake_path_dirs "posix"
      (Config.VStr (String.concat ":" ["s3://bucket/cats"; "gs://other"; "local/dir"]))
    = inr (Config.VList ["s3://bucket/cats"; "gs://other"; "local/dir"]).
Proof.
  assert ("posix" ≠ "nt") as Hnt by discriminate.
  assert (Forall (λ v, colons_guarded v = true)
            ["s3://bucket/cats"; "gs://other"; "local/dir"]) as Hg
    by (repeat constructor).
  assert (Forall (λ v, starts_plain v = true) ["gs://other"; "local/dir"]) as Hp
    by (repeat constructor).
  split_and!; [exact Hnt | exact Hg | exact Hp |].
  apply (X12_posix_join_then_split "posix" _ _ Hnt Hg Hp).
Defined.

Lemma X15_witness :
  Demo.environ_path !! "INTAKE_PATH" = Some "s3://bucket/cats:gs://other:local/dir"
  ∧ Demo.environ_path !! "INTAKE_LOG_LEVEL" = Some "DEBUG"
  ∧ (Config.load_env "posix" id id Demo.accept_level Demo.environ_path Demo.odd_conf).1
    = inr ()
  ∧ (Config.load_env "posix" id id Demo.accept_level Demo.environ_path Demo.odd_conf).2
      !! "catalog_path"
    = Some (Config.VList ["s3://bucket/cats"; "gs://other"; "local/dir"])
  ∧ (Config.load_env "posix" id id Demo.accept_level Demo.environ_path Demo.odd_conf).2
      !! "logging"
    = Some (Config.VStr "DEBUG").
Proof.
  assert (Demo.environ_path !! "INTAKE_PATH" = Some "s3://bucket/cats:gs://other:local/dir")
    as Hpath by reflexivity.
  assert (Demo.environ_path !! "INTAKE_LOG_LEVEL" = Some "DEBUG") as Hlevel by reflexivity.
  destruct (X15_environment_takes_precedence "posix" id id Demo.accept_level
              Demo.environ_path Demo.odd_conf _ Hpath) as (_ & Hcat & Hlog).
  destruct (Hlog "DEBUG" Hlevel) as [Hlogging Hout].
  split_and!; [exact Hpath | exact Hlevel | exact Hout | exact Hcat | exact Hlogging].
Defined.

Lemma X16_witness :
  Demo.environ_cache !! "INTAKE_PATH" = None
  ∧ Demo.odd_conf !! "catalog_path" = Some (Config.VBool true)
  ∧ (Config.load_env "posix" id id Demo.accept_level Demo.environ_cache Demo.odd_conf).1
    = inl Config.SplitTypeError
  ∧ (Config.load_env "posix" id id Demo.accept_level Demo.environ_cache Demo.odd_conf).2
      !! "cache_dir"
    = Some (Config.VStr "/tmp/cache")
  ∧ (Config.load_env "posix" id id Demo.accept_level Demo.environ_cache Demo.odd_conf).2
      !! "logging"
    = Demo.odd_conf !! "logging".
Proof.
  assert (Demo.environ_cache !! "INTAKE_PATH" = None) as Hpath by reflexivity.
  assert (Demo.odd_conf !! "catalog_path" = Some (Config.VBool true)) as Hself by reflexivity.
  destruct (X16_load_env_fails_half_way "posix" id id Demo.accept_level
              Demo.environ_cache Demo.odd_conf (Config.VBool true) "logging" Hpath Hself)
    as (Hfail & Hcache & Hframe); [discriminate | discriminate | discriminate |].
  split_and!; [exact Hpath | exact Hself | exact Hfail | |].
  - apply (Hcache "/tmp/cache"). reflexivity.
  - apply Hframe. by_cases_on_list.
Defined.

(** A tuple stored under [catalog_path] stays the tuple it was. *)
Example load_env_keeps_a_tuple :
  Config.intake_path_dirs "posix" (Config.VTuple ["a"; "b"]) = inr (Config.VTuple ["a"; "b"])
  ∧ (Config.load_env "posix" id id Demo.accept_level Demo.environ_cache
       {["catalog_path" := Config.VTuple ["a"; "b"]]}).2 !! "catalog_path"
    = Some (Config.VTuple ["a"; "b"]).
Proof. split; [reflexivity | vm_compute; reflexivity]. Qed.

Lemma X18_witness :
  (Conftest.MIN_PORT ≤ 7487 ≤ Conftest.MAX_PORT)%Z
  ∧ Conftest.pick_ports 5 7487
    = ((λ k : nat, (Conftest.MIN_PORT + (7487 - Conftest.MIN_PORT + Z.of_nat k) `mod` 10)%Z)
         <$> seq 0 5,
       (Conftest.MIN_PORT + (7487 - Conftest.MIN_PORT + Z.of_nat 5) `mod` 10)%Z)
  ∧ Conftest.pick_ports 5 7487
    = ([7487; 7488; 7489; 7480; 7481]%Z, 7482%Z).
Proof.
  assert (Conftest.MIN_PORT ≤ 7487 ≤ Conftest.MAX_PORT)%Z as Hr
    by (unfold Conftest.MIN_PORT, Conftest.MAX_PORT; lia).
  destruct (X18_pick_port_cycles 7487 5 Hr) as [Hclosed _].
  split; [exact Hr | split; [exact Hclosed | reflexivity]].
Defined.

Lemma X20_witness :
  StackBands._read Demo.stack_urls Demo.item_assets [Demo.red; Demo.green]
    ["red"; "B03"] "band"
  = inr ["https://host/B04.tif"; "https://host/B03.tif"]
  ∧ ∃ found last_asset,
      ["red"; "B03"] ≠ []
      ∧ Forall2 (λ band hit,
           Demo.item_assets !! hit.1 = Some hit.2
           ∧ ∃ info, info ∈ [Demo.red; Demo.green]
                     ∧ StackBands.id_or_name info = Some hit.1
                     ∧ (hit.1 = band
                        ∨ ((band ∉ dom Demo.item_assets)
                           ∧ StackBands.band_common_name info = Some band)))
          ["red"; "B03"] found
      ∧ last found.*2 = Some last_asset
      ∧ Forall (λ a, StackBands.media_type a = StackBands.media_type last_asset) found.*2
      ∧ Demo.stack_urls last_asset "band" (StackBands.href <$> found.*2)
        = inr ["https://host/B04.tif"; "https://host/B03.tif"].
Proof.
  assert (StackBands._read Demo.stack_urls Demo.item_assets [Demo.red; Demo.green]
            ["red"; "B03"] "band"
          = inr ["https://host/B04.tif"; "https://host/B03.tif"]) as Hread
    by (vm_compute; reflexivity).
  split; [exact Hread|].
  apply (X20_stack_bands_success _ _ _ _ _ _ Hread).
Defined.

Lemma X21_witness :
  StackBands.first_info StackBands.band_common_name "red" [Demo.red; Demo.green]
  = Some Demo.red
  ∧ StackBands.id_or_name Demo.red = Some "B04"
  ∧ ("red" ∉ dom Demo.item_assets)
  ∧ ("B04" ∈ dom Demo.item_assets)
  ∧ StackBands._read Demo.stack_urls Demo.item_assets [Demo.red; Demo.green]
      (["B03"] ++ "red" :: []) "band"
    = StackBands._read Demo.stack_urls Demo.item_assets [Demo.red; Demo.green]
        (["B03"] ++ "B04" :: []) "band".
Proof.
  assert (StackBands.first_info StackBands.band_common_name "red" [Demo.red; Demo.green]
          = Some Demo.red) as Hinfo by reflexivity.
  assert (StackBands.id_or_name Demo.red = Some "B04") as Hkey by reflexivity.
  assert ("red" ∉ dom Demo.item_assets) as Hcommon
    by (apply not_elem_of_dom; reflexivity).
  assert ("B04" ∈ dom Demo.item_assets) as Hdom
    by (apply elem_of_dom; eexists; reflexivity).
  split_and!; [exact Hinfo | exact Hkey | exact Hcommon | exact Hdom |].
  apply (X21_common_name_stands_for_id Demo.stack_urls Demo.item_assets
           [Demo.red; Demo.green] ["B03"] [] "red" "B04" "band" Demo.red
           Hinfo Hkey Hcommon Hdom).
Defined.

Lemma X22_witness :
  StackBands.resolve_all Demo.item_assets [Demo.red; Demo.green; Demo.edge] ["red"; "nir"]
  = inl StackBands.Unsortable
  ∧ StackBands._read Demo.stack_urls Demo.item_assets [Demo.red; Demo.green; Demo.edge]
      ["red"; "nir"] "band"
    = inl StackBands.Unsortable
  ∧ (None ∈ StackBands.valid_band_names [Demo.red; Demo.green; Demo.edge])
  ∧ ∃ name, Some name ∈ StackBands.valid_band_names [Demo.red; Demo.green; Demo.edge].
Proof.
  assert (StackBands.resolve_all Demo.item_assets [Demo.red; Demo.green; Demo.edge]
            ["red"; "nir"] = inl StackBands.Unsortable) as Hall
    by (vm_compute; reflexivity).
  destruct (X22_unresolved_band_error Demo.stack_urls _ _ _ "band" _ Hall)
    as (Hread & [Hmix _] & _).
  destruct (Hmix eq_refl) as [Hnone Hname].
  split_and!; [exact Hall | exact Hread | exact Hnone | exact Hname].
Defined.

Lemma X24_witness :
  head (Functioner.matching (PipelineMixin.transform (Collaborators0:=Demo.catalog_world) Demo.R)
          "to_catalog")
  = Some ("intake.readers.entry:Catalog", Demo.to_catalog)
  ∧ ("to_catalog" ∉ Functioner.attributes (H:=Demo.catalog_world))
  ∧ Py.contains "Catalog" "intake.readers.entry:Catalog" = true
  ∧ PipelineMixin.__getattr__ (Collaborators0:=Demo.catalog_world) Demo.R "to_catalog" []
    = (Py.Returns (ObjPipeline
         (extended Demo.R (OpCallable Demo.to_catalog, [], ∅)
                   "intake.readers.entry:Catalog")), [])
  ∧ PipelineMixin.__getitem__ (Collaborators0:=Demo.catalog_world)
      (extended Demo.R (OpCallable Demo.to_catalog, [], ∅) "intake.readers.entry:Catalog")
      "entry1" []
    = (read_then_index (H:=Demo.catalog_world)
         (extended Demo.R (OpCallable Demo.to_catalog, [], ∅) "intake.readers.entry:Catalog")
         "entry1",
       [] ++ [ReadCall (extended Demo.R (OpCallable Demo.to_catalog, [], ∅)
                          "intake.readers.entry:Catalog")]).
Proof.
  assert (head (Functioner.matching
                  (PipelineMixin.transform (Collaborators0:=Demo.catalog_world) Demo.R) "to_catalog")
          = Some ("intake.readers.entry:Catalog", Demo.to_catalog)) as Hhead
    by reflexivity.
  assert ("to_catalog" ∉ Functioner.attributes (H:=Demo.catalog_world)) as Hown
    by by_cases_on_list.
  destruct (X24_declared_type_decides_next_access (Collaborators0:=Demo.catalog_world)
              Demo.R "to_catalog" "entry1" _ _ [] Hhead Hown) as (Hattr & Heager & _).
  split_and!; [exact Hhead | exact Hown | reflexivity | exact Hattr
               | apply Heager; reflexivity].
Defined.
